(** * CyberAgent: the persistent bash session of [src/tools/system_tools.py]

    A shallow embedding of [CommandTool]: the security gate of [_run], the
    marker protocol and polling loop of [_execute_raw_command_in_session],
    the escalating [close], [_start_session] and the interpreter discovery
    [_find_bash], followed by the properties proved about them.

    Conventions of the model.
    - A Python [str] is a [string]: the UTF-8 bytes of the text.  [lower]
      and [strip] act on the ASCII letters and the ASCII white space, which
      is what Python does on ASCII text; [startswith], [in], [split] and
      concatenation are the same on bytes and on code points.
    - The operating system is a record [Env] of answers (environment
      variables, file tests, helper programs, the clock, [Popen]); the tool
      and what it did to the outside are a record [World].  Every write to a
      child's stdin, every wait and every signal is appended to a log kept
      in the world, oldest first.
    - [threading.Lock] is not reentrant: a second [with self._lock] while
      the first is still open never returns.  [Run] has an outcome for
      that. *)

From Stdlib Require Import String Ascii List Bool Arith ZArith NArith Lia.
From Stdlib Require Import DecimalString DecimalN DecimalZ.
Import ListNotations.

Local Open Scope string_scope.
Local Open Scope bool_scope.

(** ** Python string operations *)

Module PyStr.

(** The characters [str.isspace] accepts below U+0080: tab, line feed,
    vertical tab, form feed, carriage return, the four separators
    U+001C..U+001F and the space. *)
Definition isspace (c : ascii) : bool :=
  let n := nat_of_ascii c in
  (Nat.leb 9 n && Nat.leb n 13) || (Nat.leb 28 n && Nat.leb n 32).

Definition lower_char (c : ascii) : ascii :=
  let n := nat_of_ascii c in
  if Nat.leb 65 n && Nat.leb n 90 then ascii_of_nat (n + 32) else c.

(** [s.lower()] *)
Fixpoint lower (s : string) : string :=
  match s with
  | EmptyString => EmptyString
  | String c s' => String (lower_char c) (lower s')
  end.

(** [s.lstrip()] *)
Fixpoint lstrip (s : string) : string :=
  match s with
  | EmptyString => EmptyString
  | String c s' => if isspace c then lstrip s' else s
  end.

(** [s.rstrip()] *)
Fixpoint rstrip (s : string) : string :=
  match s with
  | EmptyString => EmptyString
  | String c s' =>
      match rstrip s' with
      | EmptyString => if isspace c then EmptyString else String c EmptyString
      | r => String c r
      end
  end.

(** [s.strip()] *)
Definition strip (s : string) : string := rstrip (lstrip s).

(** Truth value of a [str]: non-empty. *)
Definition truthy (s : string) : bool :=
  match s with EmptyString => false | String _ _ => true end.

(** [s.startswith(p)] *)
Definition startswith (s p : string) : bool := String.prefix p s.

(** [sub in s] *)
Fixpoint contains (sub s : string) : bool :=
  String.prefix sub s ||
  match s with
  | EmptyString => false
  | String _ s' => contains sub s'
  end.

(** [s.split(sep, 1)[0]] for a non-empty [sep]: the text before the first
    occurrence of [sep], or all of [s] when there is none. *)
Fixpoint split_before (sep s : string) : string :=
  if String.prefix sep s then EmptyString
  else match s with
       | EmptyString => EmptyString
       | String c s' => String c (split_before sep s')
       end.

(** [s.split(c)] for a one-character separator: never an empty list. *)
Fixpoint split_char (c : ascii) (s : string) : list string :=
  match s with
  | EmptyString => [EmptyString]
  | String a s' =>
      if Ascii.eqb a c then EmptyString :: split_char c s'
      else match split_char c s' with
           | [] => [String a EmptyString]
           | w :: ws => String a w :: ws
           end
  end.

(** [''.join(xs)] *)
Definition join (xs : list string) : string := String.concat "" xs.

(** [x in xs] for a list of strings *)
Definition mem (x : string) (xs : list string) : bool :=
  existsb (String.eqb x) xs.

(** [str(n)] for a non-negative and for an arbitrary integer *)
Definition str_N (n : N) : string := NilEmpty.string_of_uint (N.to_uint n).
Definition str_Z (z : Z) : string := NilEmpty.string_of_int (Z.to_int z).

Definition LF : string := String "010"%char EmptyString.
Definition ETX : string := String "003"%char EmptyString.

End PyStr.
Import PyStr.

(** ** The child process, the environment and the tool *)

Inductive Stream := STDOUT | STDERR.

(** An entry of [output_queue]: the pair [(stream_name, line)] a reader
    thread puts. *)
Definition QueueItem : Type := Stream * string.

(** A [subprocess.Popen] handle together with what the child will do.
    [returncode] is what [poll()] answers ([None] while the child runs).
    [stdin_error] is the text of the [OSError] a write to a broken stdin
    pipe raises.  [exit_wait], [term_wait] and [kill_wait] are the outcomes of
    the [wait] that follows the exit directive, [terminate()] and [kill()]:
    the exit status, or [None] for [TimeoutExpired]; [term_raises] says that
    [terminate()] itself raises [OSError]. *)
Record Popen := mkPopen {
  pid : N;
  returncode : option Z;
  stdin_closed : bool;
  stdin_error : option string;
  exit_wait : option Z;
  term_raises : bool;
  term_wait : option Z;
  kill_wait : option Z
}.

(** What the tool does to the outside. *)
Inductive Event :=
| StdinWrite (child : N) (data : string) (ok : bool)
| StdinClose (child : N)
| Wait (child : N) (seconds : Z)
| Terminate (child : N)
| Kill (child : N)
| Spawn (path : string) (child : option N).

(** The answers of the operating system.  [run_where_bash] and
    [run_which_bash] are [subprocess.run(['where', 'bash'])] and
    [subprocess.run(['which', 'bash'])]: [None] for [FileNotFoundError],
    else the return code and the captured stdout.  [run_bash_version] is the
    probe [subprocess.run(['bash', '--version'], timeout=2)]: [None] for
    [FileNotFoundError] or [TimeoutExpired], else the return code.
    [popen n path] is the [n]-th call of [subprocess.Popen([path, "-s"])],
    [None] when it raises; [time_ns n] is the [n]-th reading of
    [time.time_ns()]. *)
Record Env := mkEnv {
  getenv_BASH_EXEC_PATH : option string;
  win32 : bool;
  path_exists : string -> bool;
  access_X_OK : string -> bool;
  run_where_bash : option (Z * string);
  run_which_bash : option (Z * string);
  run_bash_version : option Z;
  popen : nat -> string -> option Popen;
  time_ns : nat -> N;
  getpid : N
}.

(** The tool instance ([bash_process], [output_queue], [_lock]) and the
    bookkeeping of the model: how often the clock and [Popen] were used, and
    the log of events. *)
Record World := mkWorld {
  bash_process : option Popen;
  output_queue : list QueueItem;
  lock_held : bool;
  clock_reads : nat;
  popen_calls : nat;
  log : list Event
}.

Definition set_process (b : option Popen) (w : World) : World :=
  mkWorld b (output_queue w) (lock_held w) (clock_reads w) (popen_calls w) (log w).
Definition set_queue (q : list QueueItem) (w : World) : World :=
  mkWorld (bash_process w) q (lock_held w) (clock_reads w) (popen_calls w) (log w).
Definition set_lock (l : bool) (w : World) : World :=
  mkWorld (bash_process w) (output_queue w) l (clock_reads w) (popen_calls w) (log w).
Definition tick (w : World) : World :=
  mkWorld (bash_process w) (output_queue w) (lock_held w) (S (clock_reads w))
          (popen_calls w) (log w).
Definition count_popen (w : World) : World :=
  mkWorld (bash_process w) (output_queue w) (lock_held w) (clock_reads w)
          (S (popen_calls w)) (log w).
Definition emit (evs : list Event) (w : World) : World :=
  mkWorld (bash_process w) (output_queue w) (lock_held w) (clock_reads w)
          (popen_calls w) (log w ++ evs)%list.

Definition set_returncode (rc : option Z) (p : Popen) : Popen :=
  mkPopen (pid p) rc (stdin_closed p) (stdin_error p) (exit_wait p)
          (term_raises p) (term_wait p) (kill_wait p).

(** [self.bash_process and self.bash_process.poll() is None], with the
    handle when it holds. *)
Definition live_process (w : World) : option Popen :=
  match bash_process w with
  | Some p => match returncode p with None => Some p | Some _ => None end
  | None => None
  end.

Definition running (w : World) : bool :=
  match live_process w with Some _ => true | None => false end.

(** ** Computations that may never return *)

Inductive Run (A : Type) : Type :=
| Returns (a : A) (w : World)
| Blocked.
Arguments Returns {A} a w.
Arguments Blocked {A}.

Definition M (A : Type) : Type := World -> Run A.

Definition ret {A} (a : A) : M A := fun w => Returns a w.

Definition bind {A B} (m : M A) (k : A -> M B) : M B :=
  fun w => match m w with
           | Returns a w' => k a w'
           | Blocked => Blocked
           end.

Notation "x <- m ;; k" := (bind m (fun x => k))
  (at level 61, m at next level, right associativity).
Notation "m ;;; k" := (bind m (fun _ => k))
  (at level 61, right associativity).

(** [with self._lock: body].  Acquiring a lock that is already held waits
    for a release that, within one thread, never comes. *)
Definition with_lock {A} (body : M A) : M A :=
  fun w =>
    if lock_held w then Blocked
    else match body (set_lock true w) with
         | Returns a w' => Returns a (set_lock false w')
         | Blocked => Blocked
         end.

(** [stdin.write(data); stdin.flush()] on the child [p]: the text of the
    exception, if one is raised.  A closed stream raises [ValueError], a
    broken pipe [OSError]; every handler of the source catches both. *)
Definition write_error (p : Popen) : option string :=
  if stdin_closed p then Some "I/O operation on closed file."
  else stdin_error p.

Definition stdin_write (p : Popen) (data : string) : M (option string) :=
  fun w =>
    match write_error p with
    | Some msg => Returns (Some msg) (emit [StdinWrite (pid p) data false] w)
    | None => Returns None (emit [StdinWrite (pid p) data true] w)
    end.

(** ** [_find_bash] *)

Definition well_known_windows : list string :=
  [ "C:\Program Files\Git\bin\bash.exe";
    "C:\Program Files (x86)\Git\bin\bash.exe";
    "C:\Program Files\Git\usr\bin\bash.exe";
    "C:\Windows\System32\bash.exe" ].

Definition well_known_posix : list string :=
  [ "/bin/bash"; "/usr/bin/bash"; "/usr/local/bin/bash" ].

(** [for x in xs: if x not in bash_paths: bash_paths.insert(0, x)] *)
Definition insert_front_new (xs bash_paths : list string) : list string :=
  fold_left (fun bp x => if mem x bp then bp else x :: bp) xs bash_paths.

(** [for x in xs: if x not in bash_paths: bash_paths.append(x)] *)
Definition append_new (xs bash_paths : list string) : list string :=
  fold_left (fun bp x => if mem x bp then bp else (bp ++ [x])%list) xs bash_paths.

Definition is_git_bash (p : string) : bool :=
  contains "Git\bin\bash.exe" p || contains "Git\usr\bin\bash.exe" p.

(** The list [bash_paths] as it stands when the search loop starts. *)
Definition bash_paths (E : Env) : list string :=
  if win32 E then
    match run_where_bash E with
    | Some (rc, out) =>
        if (rc =? 0)%Z && truthy out then
          let found_paths := split_char "010" (strip out) in
          let git_bash_paths := filter is_git_bash found_paths in
          match git_bash_paths with
          | _ :: _ => insert_front_new git_bash_paths well_known_windows
          | [] => append_new found_paths well_known_windows
          end
        else well_known_windows
    | None => well_known_windows
    end
  else
    match run_which_bash E with
    | Some (rc, out) =>
        if (rc =? 0)%Z && truthy out then
          let found_path := strip out in
          if mem found_path well_known_posix then well_known_posix
          else found_path :: well_known_posix
        else well_known_posix
    | None => well_known_posix
    end.

(** The test of the search loop, on the raw list entry. *)
Definition usable (E : Env) (path : string) : bool :=
  let path := strip path in
  truthy path && path_exists E path && access_X_OK E path.

(** The last resort: [bash --version] returns 0. *)
Definition probe_bash (E : Env) : option string :=
  match run_bash_version E with
  | Some 0%Z => Some "bash"
  | _ => None
  end.

Definition search_bash_paths (E : Env) : option string :=
  match find (usable E) (bash_paths E) with
  | Some path => Some (strip path)
  | None => probe_bash E
  end.

Definition _find_bash (E : Env) : option string :=
  match getenv_BASH_EXEC_PATH E with
  | Some env_bash =>
      if truthy env_bash && path_exists E env_bash then Some env_bash
      else search_bash_paths E
  | None => search_bash_paths E
  end.

(** ** [close] *)

Definition is_some {A} (o : option A) : bool :=
  match o with Some _ => true | None => false end.

(** [kill()] and the [wait(timeout=1)] after it; a timeout there is only
    logged. *)
Definition kill_events (p : Popen) : list Event :=
  [Kill (pid p); Wait (pid p) 1].

(** The handler of a failed graceful exit: [terminate()], [wait(timeout=2)],
    and the kill when either raises. *)
Definition terminate_events (p : Popen) : list Event :=
  if term_raises p then Terminate (pid p) :: kill_events p
  else
    Terminate (pid p) :: Wait (pid p) 2 ::
    (if is_some (term_wait p) then [] else kill_events p).

(** The body of [close] for a running child: the exit directive when stdin
    is still open, [wait(timeout=2)], and the handler when any of them
    raises. *)
Definition close_events (p : Popen) : list Event :=
  if negb (stdin_closed p) then
    match stdin_error p with
    | Some _ =>
        StdinWrite (pid p) ("exit" ++ LF) false :: terminate_events p
    | None =>
        StdinWrite (pid p) ("exit" ++ LF) true :: StdinClose (pid p) ::
        Wait (pid p) 2 ::
        (if is_some (exit_wait p) then [] else terminate_events p)
    end
  else
    Wait (pid p) 2 ::
    (if is_some (exit_wait p) then [] else terminate_events p).

(** [close(restarting)].  [restarting] only changes the wording of the log
    lines.  The [finally] clause closes the child's stdout and stderr and
    clears [bash_process]; a child that is not running is left as it is. *)
Definition close (restarting : bool) : M string :=
  with_lock
    (fun w =>
       match live_process w with
       | Some p => Returns tt (set_process None (emit (close_events p) w))
       | None => Returns tt w
       end) ;;;
  ret "Bash会话已关闭。".

(** ** [_start_session] *)

Definition init_marker (t : N) : string :=
  "__INIT_MARKER_" ++ str_N t ++ "__".

(** The readiness poll that follows the first write (at most 5 s) only
    chooses between two log lines, and is left out. *)
Definition _start_session (E : Env) : M unit :=
  with_lock
    (fun w =>
       if running w then Returns tt w
       else
         match _find_bash E with
         | None => Returns tt (set_process None w)
         | Some bash_path =>
             match popen E (popen_calls w) bash_path with
             | None =>
                 Returns tt
                   (set_process None
                      (emit [Spawn bash_path None] (count_popen w)))
             | Some p =>
                 let w1 :=
                   set_queue []
                     (set_process (Some p)
                        (emit [Spawn bash_path (Some (pid p))] (count_popen w))) in
                 let marker := init_marker (time_ns E (clock_reads w1)) in
                 match stdin_write p ("echo " ++ marker ++ LF) (tick w1) with
                 | Returns (Some _) w2 => Returns tt (set_process None w2)
                 | Returns None w2 => Returns tt w2
                 | Blocked => Blocked
                 end
             end
         end).

(** ** [_execute_raw_command_in_session] *)

(** [f"__END_OF_COMMAND_OUTPUT_{time.time_ns()}_{os.getpid()}__"] *)
Definition unique_end_marker (t host_pid : N) : string :=
  "__END_OF_COMMAND_OUTPUT_" ++ str_N t ++ "_" ++ str_N host_pid ++ "__".

(** [f"bash_session_{time.time_ns()}_{os.getpid()}"] *)
Definition session_id (t host_pid : N) : string :=
  "bash_session_" ++ str_N t ++ "_" ++ str_N host_pid.

(** What one turn of the polling loop sees: an entry delivered by
    [output_queue.get(timeout=0.1)], or [queue.Empty] and then the answer of
    [poll()]. *)
Inductive PollObs :=
| Got (item : QueueItem)
| Empty (poll : option Z).

(** [output_buffer] and [stderr_buffer] *)
Definition Buffers : Type := list string * list string.

Definition push (s : Stream) (text : string) (b : Buffers) : Buffers :=
  match s with
  | STDOUT => ((fst b ++ [text])%list, snd b)
  | STDERR => (fst b, (snd b ++ [text])%list)
  end.

(** The branch [if unique_end_marker in line] of the loop. *)
Definition on_marker_line (marker : string) (item : QueueItem) (b : Buffers)
  : Buffers :=
  let line_content_before_marker := split_before marker (snd item) in
  if truthy (strip line_content_before_marker)
  then push (fst item) line_content_before_marker b
  else b.

Inductive LoopExit :=
| Completed (b : Buffers)
| Died (rc : Z) (b : Buffers)
| TimedOut (b : Buffers).

(** The loop [while time.time() - start_time < timeout]: [polls] lists what
    the successive turns see, for as many turns as the clock allows. *)
Fixpoint await_marker (marker : string) (polls : list PollObs) (b : Buffers)
  : LoopExit :=
  match polls with
  | [] => TimedOut b
  | Got item :: rest =>
      if contains marker (snd item) then Completed (on_marker_line marker item b)
      else await_marker marker rest (push (fst item) (snd item) b)
  | Empty None :: rest => await_marker marker rest b
  | Empty (Some rc) :: _ => Died rc b
  end.

(** The recovery loop after a timeout ([while ... < 2]): [None] is a turn
    that ends in [queue.Empty]. *)
Fixpoint recover (recovery_marker : string) (obs : list (option QueueItem))
  (b : Buffers) : Buffers :=
  match obs with
  | [] => b
  | None :: rest => recover recovery_marker rest b
  | Some (s, line) :: rest =>
      if contains recovery_marker line then b
      else
        recover recovery_marker rest
          (match s with
           | STDOUT => push STDOUT ("[TIMEOUT_RECOVERY_OUTPUT] " ++ line) b
           | STDERR => push STDERR ("[TIMEOUT_RECOVERY_ERROR] " ++ line) b
           end)
  end.

Definition stdout_text (b : Buffers) : string := strip (join (fst b)).
Definition stderr_text (b : Buffers) : string := strip (join (snd b)).

Definition start_failed_text : string :=
  "错误: Bash会话未能启动或重启，无法执行命令。".
Definition retry_failed_text (e2 : string) : string :=
  "错误: 写入命令到bash失败，即使在重启会话后: " ++ e2.
Definition restart_failed_text (e : string) : string :=
  "错误: Bash会话在写入命令失败后未能重启: " ++ e.
Definition crashed_text (b : Buffers) : string :=
  "错误: Bash进程在执行命令时意外终止。标准输出: " ++ stdout_text b
  ++ " 标准错误: " ++ stderr_text b.
Definition timeout_text (timeout : Z) (b : Buffers) : string :=
  "错误: 命令执行超时 (" ++ str_Z timeout ++ "s)。捕获的标准输出: "
  ++ stdout_text b ++ " 标准错误: " ++ stderr_text b.

(** The last lines of the function: what a completed command returns. *)
Definition compose_result (stdout_result stderr_result : string) : string :=
  if truthy stderr_result then
    if negb (truthy stdout_result)
    then "命令执行错误 (来自STDERR): " ++ stderr_result
    else "命令输出 (来自STDOUT):" ++ LF ++ stdout_result ++ LF
         ++ "命令错误 (来自STDERR):" ++ LF ++ stderr_result
  else if truthy stdout_result then stdout_result
  else "命令执行成功，但没有输出。".

(** [poll()] has seen the child gone: the handle keeps the exit status. *)
Definition observe_exit (rc : Z) (w : World) : World :=
  match bash_process w with
  | Some p => set_process (Some (set_returncode (Some rc) p)) w
  | None => w
  end.

(** The handler of a timeout: Ctrl-C, the recovery marker, the recovery
    loop.  An exception of a write skips the rest of the handler. *)
Definition interrupt (marker : string) (recovery : list (option QueueItem))
  (b : Buffers) : M Buffers :=
  fun w =>
    match bash_process w with
    | None => Returns b w
    | Some p =>
        (e1 <- stdin_write p ETX ;;
         match e1 with
         | Some _ => ret b
         | None =>
             e2 <- stdin_write p ("echo " ++ marker ++ "_timeout_recovery" ++ LF) ;;
             match e2 with
             | Some _ => ret b
             | None => ret (recover (marker ++ "_timeout_recovery") recovery b)
             end
         end) w
    end.

(** From [output_buffer = []] to the end of the function. *)
Definition collect (marker : string) (timeout : Z) (polls : list PollObs)
  (recovery : list (option QueueItem)) : M string :=
  match await_marker marker polls ([], []) with
  | Completed b => ret (compose_result (stdout_text b) (stderr_text b))
  | Died rc b =>
      (fun w => Returns tt (observe_exit rc w)) ;;;
      close true ;;;
      ret (crashed_text b)
  | TimedOut b =>
      b' <- interrupt marker recovery b ;;
      ret (timeout_text timeout b')
  end.

(** [self.close(restarting=True); self._start_session()] *)
Definition restart (E : Env) : M unit :=
  close true ;;; _start_session E.

Definition _execute_raw_command_in_session (E : Env) (command : string)
  (timeout : Z) (polls : list PollObs) (recovery : list (option QueueItem))
  : M string :=
  (fun w => if running w then Returns tt w else restart E w) ;;;
  (fun w =>
     match live_process w with
     | None => Returns start_failed_text w
     | Some p =>
         let w := set_queue [] w in
         let unique_end_marker :=
           unique_end_marker (time_ns E (clock_reads w)) (getpid E) in
         let command_to_send :=
           command ++ LF ++ "echo " ++ unique_end_marker ++ LF in
         (e <- stdin_write p command_to_send ;;
          match e with
          | None => collect unique_end_marker timeout polls recovery
          | Some e =>
              restart E ;;;
              (fun w =>
                 match live_process w with
                 | Some p' =>
                     (e2 <- stdin_write p' command_to_send ;;
                      match e2 with
                      | Some e2 => ret (retry_failed_text e2)
                      | None =>
                          collect unique_end_marker timeout polls recovery
                      end) w
                 | None => Returns (restart_failed_text e) w
                 end)
          end) (tick w)
     end).

(** ** [_run] *)


Definition dangerous_prefixes : list string :=
  ["rm "; "mkfs"; "fdisk"; "dd"; "shutdown"; "reboot"; "mv "].

Definition has_interactive_flag (c : string) : bool :=
  contains "-i" c || contains "--interactive" c.

(** The value of [is_dangerous_command_type] when the check is over. *)
Definition is_dangerous_command_type (command : string) : bool :=
  let command_lower_stripped := strip (lower command) in
  if existsb (startswith command_lower_stripped) dangerous_prefixes then
    if startswith command_lower_stripped "rm "
       && has_interactive_flag command_lower_stripped then false
    else if startswith command_lower_stripped "mv "
            && has_interactive_flag command_lower_stripped then false
    else true
  else false.

Definition security_blocked_text (original_command : string) : string :=
  "错误：出于安全考虑，禁止执行可能危险的命令: " ++ strip original_command.

Definition terminate_session (E : Env) : M string :=
  restart E ;;;
  (fun w =>
     if running w then Returns "Bash会话已成功终止并重启。" w
     else Returns "错误：Bash会话未能成功重启。" w).

Definition _run (E : Env) (command : string) (polls : list PollObs)
  (recovery : list (option QueueItem)) : M string :=
  with_lock
    (if String.eqb (strip command) "terminate_session" then terminate_session E
     else if is_dangerous_command_type command
          then ret (security_blocked_text command)
          else _execute_raw_command_in_session E command 20 polls recovery).

(** ** Notions the specification speaks of *)

(** A text without a character that is not white space. *)
Definition all_space (s : string) : bool :=
  forallb isspace (list_ascii_of_string s).

(** The character [c] does not occur in [s]. *)
Fixpoint lacks (c : ascii) (s : string) : Prop :=
  match s with
  | EmptyString => True
  | String a s' => a <> c /\ lacks c s'
  end.





(** One step of an escalating shutdown: what is sent to the child, whether
    sending it raises, the bound in seconds of the wait that follows, and
    whether the child is gone within that bound. *)
Record ShutdownStep := mkStep {
  sent : list Event;
  raises : bool;
  wait_bound : Z;
  gone : bool
}.

Definition run_step (child : N) (st : ShutdownStep) : list Event * bool :=
  if raises st then (sent st, false)
  else ((sent st ++ [Wait child (wait_bound st)])%list, gone st).

(** An ordered list of steps, run until the first one succeeds. *)
Fixpoint escalate (child : N) (steps : list ShutdownStep) : list Event :=
  match steps with
  | [] => []
  | st :: rest =>
      (fst (run_step child st)
       ++ (if snd (run_step child st) then [] else escalate child rest))%list
  end.

(** The three steps of [close]: the exit directive with the closing of
    stdin (skipped when stdin is closed already), the terminate signal, the
    kill signal; their waits are bounded by 2 s, 2 s and 1 s. *)
Definition exit_directive_step (p : Popen) : ShutdownStep :=
  mkStep
    (if stdin_closed p then []
     else if is_some (stdin_error p)
          then [StdinWrite (pid p) ("exit" ++ LF) false]
          else [StdinWrite (pid p) ("exit" ++ LF) true; StdinClose (pid p)])
    (negb (stdin_closed p) && is_some (stdin_error p))
    2 (is_some (exit_wait p)).

Definition terminate_step (p : Popen) : ShutdownStep :=
  mkStep [Terminate (pid p)] (term_raises p) 2 (is_some (term_wait p)).

Definition kill_step (p : Popen) : ShutdownStep :=
  mkStep [Kill (pid p)] false 1 (is_some (kill_wait p)).

Definition shutdown_steps (p : Popen) : list ShutdownStep :=
  [exit_directive_step p; terminate_step p; kill_step p].

(** What the locate-executable program of the platform reported. *)
Definition locate_results (E : Env) : list string :=
  if win32 E then
    match run_where_bash E with
    | Some (rc, out) =>
        if (rc =? 0)%Z && truthy out then split_char "010" (strip out) else []
    | None => []
    end
  else
    match run_which_bash E with
    | Some (rc, out) => if (rc =? 0)%Z && truthy out then [strip out] else []
    | None => []
    end.

(** The discovery as the specification words it: the override, then the
    well-known locations, then the located paths; the first that exists and
    is executable; else the probe. *)
Definition claimed_order (E : Env) : list string :=
  ((match getenv_BASH_EXEC_PATH E with Some o => [o] | None => [] end)
   ++ (if win32 E then well_known_windows else well_known_posix)
   ++ locate_results E)%list.

Definition claimed_find_bash (E : Env) : option string :=
  match find (fun path => path_exists E path && access_X_OK E path)
             (claimed_order E) with
  | Some path => Some path
  | None => probe_bash E
  end.

(** The entries of [xs] that are neither in [seen] nor earlier in [xs]. *)
Fixpoint fresh (seen xs : list string) : list string :=
  match xs with
  | [] => []
  | x :: xs' =>
      if mem x seen then fresh seen xs' else x :: fresh (x :: seen) xs'
  end.

(** The order in which the search loop tries paths.  Elsewhere than on
    Windows: the located path, when new, and then the well-known locations.
    On Windows: the new Git-for-Windows paths among the located ones, the
    last reported first, and then the well-known locations; or, when no
    located path is a Git-for-Windows one, the well-known locations and then
    the new located paths. *)
Definition search_order (E : Env) : list string :=
  if win32 E then
    match filter is_git_bash (locate_results E) with
    | [] => (well_known_windows
             ++ fresh well_known_windows (locate_results E))%list
    | git => (rev (fresh well_known_windows git) ++ well_known_windows)%list
    end
  else (fresh well_known_posix (locate_results E) ++ well_known_posix)%list.

(** The override is set, non-empty and names an existing path. *)
Definition override_accepted (E : Env) : bool :=
  match getenv_BASH_EXEC_PATH E with
  | Some o => truthy o && path_exists E o
  | None => false
  end.

(** ** A concrete host, used to run the model *)

(** A child that accepts writes and leaves on the exit directive. *)
Definition child (n : N) : Popen :=
  mkPopen n None false None (Some 0%Z) false (Some (-15)%Z) (Some (-9)%Z).

(** A child whose stdin pipe is broken and that only a kill ends. *)
Definition broken_child (n : N) : Popen :=
  mkPopen n None false (Some "[Errno 32] Broken pipe") None false None
          (Some (-9)%Z).

(** A Linux host with bash at [/bin/bash]; the [n]-th child has pid
    [100 + n], the [n]-th clock reading is [1000 + n], the host pid is 77. *)
Definition linux_host : Env :=
  mkEnv None false (fun p => String.eqb p "/bin/bash") (fun _ => true)
        None (Some (0%Z, "/bin/bash" ++ LF)) (Some 0%Z)
        (fun n _ => Some (child (100 + N.of_nat n)))
        (fun n => (1000 + N.of_nat n)%N) 77%N.

(** A tool with a running child of pid 5 and one stale queue entry. *)
Definition session0 : World :=
  mkWorld (Some (child 5)) [(STDOUT, "stale" ++ LF)] false 0 0 [].

(** The same tool when the stdin pipe of its child is broken. *)
Definition broken_session : World :=
  mkWorld (Some (broken_child 5)) [] false 0 0 [].

(** A macOS host: [which] finds the Homebrew bash, every path exists and is
    executable. *)
Definition homebrew_host : Env :=
  mkEnv None false (fun _ => true) (fun _ => true)
        None (Some (0%Z, "/opt/homebrew/bin/bash" ++ LF)) (Some 0%Z)
        (fun n _ => Some (child (100 + N.of_nat n)))
        (fun n => (1000 + N.of_nat n)%N) 77%N.

(** A host whose override names a file that exists and is not executable. *)
Definition override_host : Env :=
  mkEnv (Some "/data/bash.txt") false (fun _ => true)
        (fun p => negb (String.eqb p "/data/bash.txt"))
        None (Some (0%Z, "/bin/bash" ++ LF)) (Some 0%Z)
        (fun n _ => Some (child (100 + N.of_nat n)))
        (fun n => (1000 + N.of_nat n)%N) 77%N.

(** ** Notions used by the further properties *)

Definition stream_eqb (a b : Stream) : bool :=
  match a, b with
  | STDOUT, STDOUT | STDERR, STDERR => true
  | _, _ => false
  end.

(** The lines of one stream among queue entries, in their order. *)
Definition lines_of (s : Stream) (items : list QueueItem) : list string :=
  map snd (filter (fun it => stream_eqb (fst it) s) items).

(** No entry contains the marker. *)
Definition marker_free (marker : string) (items : list QueueItem) : bool :=
  forallb (fun it => negb (contains marker (snd it))) items.

(** A turn of the polling loop that finds the queue empty and the child
    alive. *)
Definition idle (o : PollObs) : bool :=
  match o with Empty None => true | _ => false end.

(** No line seen by the recovery loop contains the recovery marker. *)
Definition recovery_marker_free (recovery_marker : string)
  (obs : list (option QueueItem)) : bool :=
  forallb (fun o => match o with
                    | Some (_, line) => negb (contains recovery_marker line)
                    | None => true
                    end) obs.







(** A computation that, when it returns, returns a non-empty text. *)
Definition never_empty (m : M string) : Prop :=
  forall w r w', m w = Returns r w' -> r <> "".

(** ** [_convert_windows_path_to_bash] *)

(** [s.lstrip(chars)], [s.rstrip(chars)] and [s.strip(chars)], the set of
    characters given as a test. *)
Fixpoint lstrip_chars (f : ascii -> bool) (s : string) : string :=
  match s with
  | EmptyString => EmptyString
  | String c s' => if f c then lstrip_chars f s' else s
  end.

Fixpoint rstrip_chars (f : ascii -> bool) (s : string) : string :=
  match s with
  | EmptyString => EmptyString
  | String c s' =>
      match rstrip_chars f s' with
      | EmptyString => if f c then EmptyString else String c EmptyString
      | r => String c r
      end
  end.

Definition strip_chars (f : ascii -> bool) (s : string) : string :=
  rstrip_chars f (lstrip_chars f s).

(** The double and the single quote. *)
Definition is_quote (c : ascii) : bool :=
  Ascii.eqb c "034" || Ascii.eqb c "'".

(** The backslash and the slash. *)
Definition is_slash (c : ascii) : bool :=
  Ascii.eqb c "\" || Ascii.eqb c "/".

(** [s.replace('\\', '/')] *)
Fixpoint replace_backslash (s : string) : string :=
  match s with
  | EmptyString => EmptyString
  | String c s' =>
      String (if Ascii.eqb c "\" then "/"%char else c) (replace_backslash s')
  end.

(** [s.split(sep, 1)[1]] for a one-character [sep] that occurs in [s]. *)
Fixpoint split_after (sep : ascii) (s : string) : string :=
  match s with
  | EmptyString => EmptyString
  | String c s' => if Ascii.eqb c sep then s' else split_after sep s'
  end.

Definition _convert_windows_path_to_bash (E : Env) (path : string) : string :=
  if negb (win32 E) then path
  else
    let path := strip_chars is_quote path in
    if negb (truthy path) then ""
    else if startswith path "/" || startswith path "\\"
    then replace_backslash path
    else if contains ":" path then
      let drive := split_before ":" path in
      let rest_of_path := split_after ":" path in
      let drive := lower drive in
      let rest_of_path :=
        replace_backslash (lstrip_chars is_slash rest_of_path) in
      "/" ++ drive ++ "/" ++ rest_of_path
    else replace_backslash path.

(** A Windows host without [where]. *)
Definition windows_host : Env :=
  mkEnv None true (fun _ => true) (fun _ => true) None None None
        (fun _ _ => None) (fun n => N.of_nat n) 1%N.

(** A tool that never had a child. *)
Definition fresh_tool : World := mkWorld None [] false 0 0 [].

(** A host without any bash. *)
Definition no_bash_host : Env :=
  mkEnv None false (fun _ => false) (fun _ => false) None None None
        (fun _ _ => None) (fun n => N.of_nat n) 1%N.

(** * Properties *)

(** ** The model at work *)

Example strip_ex :
  strip (String "009"%char "  rm -rf /  " ++ LF) = "rm -rf /".
Proof. reflexivity. Qed.

Example lower_ex : lower "RM -Rf /TMP" = "rm -rf /tmp".
Proof. reflexivity. Qed.

Example split_before_ex : split_before "##" "ab#c##d##e" = "ab#c".
Proof. reflexivity. Qed.

Example split_char_ex : split_char "/" "a//b/" = ["a"; ""; "b"; ""].
Proof. reflexivity. Qed.

Example str_ex :
  str_N 0 = "0" /\ str_N 1730000000123456789 = "1730000000123456789"
  /\ str_Z (-20) = "-20" /\ str_Z 0 = "0" /\ str_Z 20 = "20".
Proof. repeat split. Qed.

Example marker_ex :
  unique_end_marker 1000 77 = "__END_OF_COMMAND_OUTPUT_1000_77__"
  /\ session_id 1000 77 = "bash_session_1000_77".
Proof. split; reflexivity. Qed.

Example find_bash_linux_ex : _find_bash linux_host = Some "/bin/bash".
Proof. reflexivity. Qed.

(** On Windows the Git paths that [where] reports go to the front, the
    last one first; the carriage return that [where] leaves on a line is
    stripped by the search loop only. *)
Example bash_paths_windows_ex :
  bash_paths
    (mkEnv None true (fun _ => true) (fun _ => true)
       (Some (0%Z, "D:\Git\bin\bash.exe" ++ LF ++ "C:\msys\bash.exe" ++ LF
                   ++ "E:\Git\usr\bin\bash.exe" ++ LF))
       None None (fun _ _ => None) (fun _ => 0%N) 1%N)
  = "E:\Git\usr\bin\bash.exe" :: "D:\Git\bin\bash.exe" :: well_known_windows.
Proof. reflexivity. Qed.

(** [echo hello] on a running session. *)
Example echo_hello_ex :
  _run linux_host "echo hello"
    [Empty None; Got (STDOUT, "hello" ++ LF);
     Got (STDOUT, "__END_OF_COMMAND_OUTPUT_1000_77__" ++ LF)] [] session0
  = Returns "hello"
      (mkWorld (Some (child 5)) [] false 1 0
         [StdinWrite 5
            ("echo hello" ++ LF ++ "echo __END_OF_COMMAND_OUTPUT_1000_77__"
             ++ LF) true]).
Proof. reflexivity. Qed.

(** A call on a tool that never had a child starts one first. *)
Example first_call_starts_session_ex :
  _execute_raw_command_in_session linux_host "pwd" 20
    [Got (STDOUT, "/root" ++ LF);
     Got (STDOUT, "__END_OF_COMMAND_OUTPUT_1001_77__" ++ LF)] []
    (mkWorld None [] false 0 0 [])
  = Returns "/root"
      (mkWorld (Some (child 100)) [] false 2 1
         [Spawn "/bin/bash" (Some 100%N);
          StdinWrite 100 ("echo __INIT_MARKER_1000__" ++ LF) true;
          StdinWrite 100
            ("pwd" ++ LF ++ "echo __END_OF_COMMAND_OUTPUT_1001_77__" ++ LF)
            true]).
Proof. reflexivity. Qed.

(** [_run] holds the lock while it handles [terminate_session], and the
    [close] it calls asks for the same lock. *)
Lemma run_terminate_session_never_returns E polls recovery w :
  _run E "terminate_session" polls recovery w = Blocked.
Proof.
  unfold _run, with_lock. destruct (lock_held w); reflexivity.
Qed.

(** ** Strings *)

Lemma prefix_app p r : String.prefix p (p ++ r) = true.
Proof.
  induction p as [|c p IH]; simpl.
  - destruct r; reflexivity.
  - rewrite IH. destruct (ascii_dec c c); congruence.
Qed.

Lemma prefix_split p s : String.prefix p s = true -> exists r, s = p ++ r.
Proof.
  revert s; induction p as [|c p IH]; intros s H.
  - exists s; reflexivity.
  - destruct s as [|d s]; simpl in H; [discriminate|].
    destruct (ascii_dec c d) as [->|]; [|discriminate].
    destruct (IH _ H) as [r ->]. exists r; reflexivity.
Qed.

Lemma contains_cons sub c s :
  contains sub (String c s) = String.prefix sub (String c s) || contains sub s.
Proof. reflexivity. Qed.

Lemma split_before_cons sep c s :
  split_before sep (String c s) =
  if String.prefix sep (String c s) then "" else String c (split_before sep s).
Proof. reflexivity. Qed.

(** A line that contains [sep] is the split-off text, [sep], and a rest. *)
Lemma split_before_first sep s :
  contains sep s = true ->
  exists post, s = split_before sep s ++ sep ++ post.
Proof.
  induction s as [|c s IH].
  - simpl. rewrite orb_false_r. destruct sep; [|discriminate].
    exists ""; reflexivity.
  - rewrite contains_cons, split_before_cons.
    destruct (String.prefix sep (String c s)) eqn:Hp; intro H.
    + destruct (prefix_split _ _ Hp) as [r Hr]. exists r. exact Hr.
    + simpl in H. destruct (IH H) as [post Hpost]. exists post.
      change (String c s = String c (split_before sep s ++ sep ++ post)).
      congruence.
Qed.





Lemma isspace_lower_char c : isspace (lower_char c) = isspace c.
Proof. destruct c as [[] [] [] [] [] [] [] []]; reflexivity. Qed.




Lemma str_N_inj a b : str_N a = str_N b -> a = b.
Proof.
  unfold str_N; intro H. apply DecimalN.Unsigned.to_uint_inj.
  apply (f_equal NilEmpty.uint_of_string) in H.
  rewrite !NilEmpty.usu in H. congruence.
Qed.

Lemma string_of_uint_lacks d : lacks "_" (NilEmpty.string_of_uint d).
Proof. induction d; simpl; auto; split; auto; discriminate. Qed.

(** Two texts free of [c], each followed by [c], are cut at the same place. *)
Lemma app_cut c s1 : forall s2 r1 r2,
  lacks c s1 -> lacks c s2 ->
  s1 ++ String c r1 = s2 ++ String c r2 -> s1 = s2 /\ r1 = r2.
Proof.
  induction s1 as [|a s1 IH]; intros [|b s2] r1 r2 H1 H2 H; simpl in *.
  - injection H; auto.
  - injection H as Hc _. destruct H2 as [H2 _]. congruence.
  - injection H as Hc _. destruct H1 as [H1 _]. congruence.
  - injection H as Hab H. destruct H1 as [_ H1], H2 as [_ H2].
    destruct (IH _ _ _ H1 H2 H) as [-> ->]. subst; auto.
Qed.

(** ** The lock and the entry of the executor *)

Lemma unlock_lock w : lock_held w = false -> set_lock false (set_lock true w) = w.
Proof. destruct w; simpl; intros ->; reflexivity. Qed.

Lemma live_running w p : live_process w = Some p -> running w = true.
Proof. unfold running; intros ->; reflexivity. Qed.

Lemma live_bash_process w p : live_process w = Some p -> bash_process w = Some p.
Proof.
  unfold live_process. destruct (bash_process w) as [q|]; [|discriminate].
  destruct (returncode q); congruence.
Qed.

(** On a running session whose stdin takes the write, the executor drains
    the queue, reads the clock, writes the command and its marker, and goes
    on to collect the output. *)
Lemma execute_live E command timeout polls recovery w p :
  live_process w = Some p ->
  write_error p = None ->
  _execute_raw_command_in_session E command timeout polls recovery w =
  let marker := unique_end_marker (time_ns E (clock_reads w)) (getpid E) in
  collect marker timeout polls recovery
    (emit [StdinWrite (pid p) (command ++ LF ++ "echo " ++ marker ++ LF) true]
       (tick (set_queue [] w))).
Proof.
  intros Hl Hw. unfold _execute_raw_command_in_session, bind.
  rewrite (live_running _ _ Hl), Hl. unfold stdin_write. rewrite Hw.
  reflexivity.
Qed.

(** ** The security gate *)








(** ** Markers *)

(** C3.  Two completion markers built at two clock readings of which the
    second is larger are different, whatever the process ids in them (the
    same host process or not). *)
Theorem markers_never_collide (t1 t2 p1 p2 : N) :
  (t1 < t2)%N -> unique_end_marker t1 p1 <> unique_end_marker t2 p2.
Proof.
  intros Hlt H. unfold unique_end_marker in H. simpl in H.
  repeat match type of H with String ?a _ = String ?a _ => injection H as H end.
  apply app_cut in H; try apply string_of_uint_lacks.
  destruct H as [H _]. apply str_N_inj in H. lia.
Qed.

Example markers_never_collide_witness :
  (9 < 10)%N /\ unique_end_marker 9 77 <> unique_end_marker 10 77.
Proof.
  split; [reflexivity|]. apply (markers_never_collide 9 10 77 77). reflexivity.
Defined.

(** ** The marker line *)



(** ** Completed commands *)


Lemma collect_completed marker timeout polls recovery w b :
  await_marker marker polls ([], []) = Completed b ->
  collect marker timeout polls recovery w
  = Returns (compose_result (stdout_text b) (stderr_text b)) w.
Proof. intro H. unfold collect. rewrite H. reflexivity. Qed.



(** ** [close] on a session that is, or is not, running *)

Lemma close_not_running restarting w :
  lock_held w = false ->
  live_process w = None ->
  close restarting w = Returns "Bash会话已关闭。" w.
Proof.
  intros Hl Hn. unfold close, bind, with_lock, ret. rewrite Hl.
  replace (live_process (set_lock true w)) with (live_process w) by reflexivity.
  rewrite Hn, unlock_lock; auto.
Qed.

Lemma close_running restarting w p :
  lock_held w = false ->
  live_process w = Some p ->
  close restarting w
  = Returns "Bash会话已关闭。" (set_process None (emit (close_events p) w)).
Proof.
  intros Hl Hp. unfold close, bind, with_lock, ret. rewrite Hl.
  replace (live_process (set_lock true w)) with (live_process w) by reflexivity.
  rewrite Hp. destruct w; simpl in *; subst; reflexivity.
Qed.

(** Inside [with self._lock] a second [with self._lock] never returns. *)
Lemma close_while_locked restarting w :
  lock_held w = true -> close restarting w = Blocked.
Proof. intro Hl. unfold close, bind, with_lock. rewrite Hl. reflexivity. Qed.

Lemma observe_exit_not_live rc w p :
  bash_process w = Some p -> live_process (observe_exit rc w) = None.
Proof.
  intro H. unfold observe_exit, live_process. rewrite H. reflexivity.
Qed.

(** ** A child that dies while its output is awaited *)

Lemma collect_died marker timeout polls recovery w p rc b :
  lock_held w = false ->
  bash_process w = Some p ->
  await_marker marker polls ([], []) = Died rc b ->
  collect marker timeout polls recovery w
  = Returns (crashed_text b) (observe_exit rc w).
Proof.
  intros Hl Hp H. unfold collect. rewrite H. unfold bind at 1.
  unfold bind at 1. rewrite close_not_running.
  - reflexivity.
  - unfold observe_exit. rewrite Hp. exact Hl.
  - eapply observe_exit_not_live; eauto.
Qed.

Lemma execute_crash E command timeout polls recovery w p rc b :
  lock_held w = false ->
  live_process w = Some p ->
  write_error p = None ->
  await_marker (unique_end_marker (time_ns E (clock_reads w)) (getpid E))
    polls ([], []) = Died rc b ->
  _execute_raw_command_in_session E command timeout polls recovery w =
  Returns (crashed_text b)
    (observe_exit rc
       (emit [StdinWrite (pid p)
                (command ++ LF ++ "echo "
                 ++ unique_end_marker (time_ns E (clock_reads w)) (getpid E)
                 ++ LF) true]
          (tick (set_queue [] w)))).
Proof.
  intros Hl Hp Hw H. rewrite (execute_live _ _ _ _ _ _ _ Hp Hw). cbv zeta.
  apply collect_died with (p := p); auto.
  simpl. apply live_bash_process; exact Hp.
Qed.

(** The same crash met under [_run], which holds the lock: the call to
    [close] in the crash branch waits for the lock for ever. *)
Lemma run_crash_never_returns E command polls recovery w p rc b :
  lock_held w = false ->
  String.eqb (strip command) "terminate_session" = false ->
  is_dangerous_command_type command = false ->
  live_process w = Some p ->
  write_error p = None ->
  await_marker (unique_end_marker (time_ns E (clock_reads w)) (getpid E))
    polls ([], []) = Died rc b ->
  _run E command polls recovery w = Blocked.
Proof.
  intros Hl Ht Hd Hp Hw H. unfold _run. rewrite Ht, Hd.
  unfold with_lock. rewrite Hl.
  rewrite (execute_live E command 20 polls recovery (set_lock true w) p Hp Hw).
  cbv zeta. unfold collect.
  replace (clock_reads (set_lock true w)) with (clock_reads w) by reflexivity.
  rewrite H. unfold bind at 1. unfold bind at 1.
  rewrite close_while_locked; [reflexivity|].
  unfold observe_exit. simpl. rewrite (live_bash_process _ _ Hp). reflexivity.
Qed.

(** C5, as the specification has it, fails: the result of a crash is the
    same text whatever the exit status, so the status cannot be read off
    it. *)
Lemma crash_result_hides_exit_status :
  ~ (exists status_of : string -> Z,
        forall rc r w',
          _execute_raw_command_in_session linux_host "ls" 20
            [Got (STDOUT, "a" ++ LF); Empty (Some rc)] [] session0
          = Returns r w' ->
          status_of r = rc).
Proof.
  intros [status_of H].
  assert (H1 := H 1%Z _ _ eq_refl). assert (H2 := H 137%Z _ _ eq_refl).
  simpl in H1, H2. rewrite H1 in H2. discriminate.
Qed.

(** C5, amended.  When the child is seen to have exited while the marker is
    awaited, a call made with the session lock free stops and returns the
    crash text with the stripped stdout and stderr gathered so far; the exit
    status is kept in the process handle and is no part of the result. *)
Theorem crash_returns_partial_output E command timeout polls recovery w p rc b :
  lock_held w = false ->
  live_process w = Some p ->
  write_error p = None ->
  await_marker (unique_end_marker (time_ns E (clock_reads w)) (getpid E))
    polls ([], []) = Died rc b ->
  exists w',
    _execute_raw_command_in_session E command timeout polls recovery w
    = Returns ("错误: Bash进程在执行命令时意外终止。标准输出: "
               ++ strip (join (fst b)) ++ " 标准错误: " ++ strip (join (snd b)))
        w'
    /\ bash_process w' = Some (set_returncode (Some rc) p).
Proof.
  intros Hl Hp Hw H. eexists. split.
  - apply execute_crash; eauto.
  - unfold observe_exit. simpl. rewrite (live_bash_process _ _ Hp). reflexivity.
Qed.

Example crash_returns_partial_output_witness :
  lock_held session0 = false
  /\ live_process session0 = Some (child 5)
  /\ write_error (child 5) = None
  /\ await_marker "__END_OF_COMMAND_OUTPUT_1000_77__"
       [Got (STDOUT, "a" ++ LF); Empty None; Got (STDERR, "oops" ++ LF);
        Empty (Some 137%Z)] ([], [])
     = Died 137 (["a" ++ LF], ["oops" ++ LF])
  /\ exists w',
      _execute_raw_command_in_session linux_host "ls" 20
        [Got (STDOUT, "a" ++ LF); Empty None; Got (STDERR, "oops" ++ LF);
         Empty (Some 137%Z)] [] session0
      = Returns "错误: Bash进程在执行命令时意外终止。标准输出: a 标准错误: oops" w'
      /\ bash_process w' = Some (set_returncode (Some 137%Z) (child 5)).
Proof.
  split; [reflexivity|]. split; [reflexivity|]. split; [reflexivity|].
  split; [reflexivity|].
  exact (crash_returns_partial_output linux_host "ls" 20%Z
           [Got (STDOUT, "a" ++ LF); Empty None; Got (STDERR, "oops" ++ LF);
            Empty (Some 137%Z)] [] session0 (child 5) 137%Z
           (["a" ++ LF], ["oops" ++ LF]) eq_refl eq_refl eq_refl eq_refl).
Defined.

(** ** Restart and retry *)


Lemma close_returns restarting w :
  lock_held w = false ->
  exists w',
    close restarting w = Returns "Bash会话已关闭。" w'
    /\ lock_held w' = false
    /\ popen_calls w' = popen_calls w
    /\ live_process w' = None.
Proof.
  intro Hl. destruct (live_process w) as [p|] eqn:Hp.
  - rewrite (close_running _ _ _ Hl Hp). eexists; split; [reflexivity|].
    simpl. auto.
  - rewrite (close_not_running _ _ Hl Hp). eexists; split; [reflexivity|]. auto.
Qed.





Lemma execute_write_failed E command timeout polls recovery w p e :
  live_process w = Some p ->
  write_error p = Some e ->
  _execute_raw_command_in_session E command timeout polls recovery w =
  let marker := unique_end_marker (time_ns E (clock_reads w)) (getpid E) in
  let command_to_send := command ++ LF ++ "echo " ++ marker ++ LF in
  match restart E (emit [StdinWrite (pid p) command_to_send false]
                     (tick (set_queue [] w))) with
  | Blocked => Blocked
  | Returns _ w2 =>
      match live_process w2 with
      | None => Returns (restart_failed_text e) w2
      | Some p' =>
          match write_error p' with
          | Some e2 =>
              Returns (retry_failed_text e2)
                (emit [StdinWrite (pid p') command_to_send false] w2)
          | None =>
              collect marker timeout polls recovery
                (emit [StdinWrite (pid p') command_to_send true] w2)
          end
      end
  end.
Proof.
  intros Hl Hw. unfold _execute_raw_command_in_session. unfold bind at 1.
  rewrite (live_running _ _ Hl), Hl. unfold bind at 1. unfold stdin_write at 1.
  rewrite Hw. cbv zeta. unfold bind at 1.
  replace (clock_reads (set_queue [] w)) with (clock_reads w) by reflexivity.
  destruct (restart E _) as [[] w2|]; [|reflexivity].
  destruct (live_process w2) as [p'|]; [|reflexivity].
  unfold bind, stdin_write, ret. destruct (write_error p'); reflexivity.
Qed.




(** ** Timeouts *)


Lemma collect_timed_out marker timeout polls recovery w p b :
  bash_process w = Some p ->
  write_error p = None ->
  await_marker marker polls ([], []) = TimedOut b ->
  collect marker timeout polls recovery w =
  Returns (timeout_text timeout
             (recover (marker ++ "_timeout_recovery") recovery b))
    (emit [StdinWrite (pid p) ETX true;
           StdinWrite (pid p) ("echo " ++ marker ++ "_timeout_recovery" ++ LF)
             true] w).
Proof.
  intros Hp Hw H. unfold collect. rewrite H.
  unfold bind at 1. unfold interrupt. rewrite Hp.
  unfold bind, stdin_write, ret. rewrite Hw.
  unfold emit; simpl. rewrite <- app_assoc. reflexivity.
Qed.



(** ** Shutdown *)

Lemma close_events_escalate p :
  close_events p = escalate (pid p) (shutdown_steps p).
Proof.
  unfold close_events, terminate_events, kill_events, shutdown_steps.
  destruct p as [n rc closed err ew tr tw kw]; cbn.
  destruct closed, err, ew, tr, tw, kw; reflexivity.
Qed.

(** C7.  With the lock free, [close] on a session that never started or
    whose child has exited returns and changes nothing; a second [close]
    after any [close] returns and changes nothing; on a running child the
    events of [close] are those of the three ordered steps (exit directive
    and closing of stdin with a wait of 2 s, terminate with a wait of 2 s,
    kill with a wait of 1 s), each step taken only when the one before has
    failed, and the handle is cleared. *)
Theorem close_is_idempotent_and_escalates :
  (forall restarting w,
      lock_held w = false ->
      live_process w = None ->
      close restarting w = Returns "Bash会话已关闭。" w)
  /\ (forall restarting again w,
         lock_held w = false ->
         exists w',
           close restarting w = Returns "Bash会话已关闭。" w'
           /\ close again w' = Returns "Bash会话已关闭。" w')
  /\ (forall restarting w p,
         lock_held w = false ->
         live_process w = Some p ->
         close restarting w =
         Returns "Bash会话已关闭。"
           (set_process None (emit (escalate (pid p) (shutdown_steps p)) w)))
  /\ (forall p,
         stdin_closed p = false ->
         stdin_error p = None ->
         term_raises p = false ->
         escalate (pid p) (shutdown_steps p) =
         ([StdinWrite (pid p) ("exit" ++ LF) true; StdinClose (pid p);
           Wait (pid p) 2]
          ++ (if is_some (exit_wait p) then []
              else [Terminate (pid p); Wait (pid p) 2]
                   ++ (if is_some (term_wait p) then []
                       else [Kill (pid p); Wait (pid p) 1])))%list).
Proof.
  split; [|split; [|split]].
  - intros. apply close_not_running; assumption.
  - intros restarting again w Hl.
    destruct (close_returns restarting w Hl) as (w' & Hc & Hl' & _ & Hn).
    exists w'. split; [exact Hc|]. apply close_not_running; assumption.
  - intros restarting w p Hl Hp. rewrite <- close_events_escalate.
    apply close_running; assumption.
  - intros [n rc closed err ew tr tw kw]; cbn. intros -> -> ->.
    destruct ew, tw, kw; reflexivity.
Qed.

Example close_is_idempotent_and_escalates_witness :
  lock_held broken_session = false
  /\ live_process broken_session = Some (broken_child 5)
  /\ close false broken_session =
     Returns "Bash会话已关闭。"
       (set_process None
          (emit [StdinWrite 5 ("exit" ++ LF) false; Terminate 5; Wait 5 2;
                 Kill 5; Wait 5 1] broken_session)).
Proof.
  split; [reflexivity|]. split; [reflexivity|].
  exact (proj1 (proj2 (proj2 close_is_idempotent_and_escalates)) false
           broken_session (broken_child 5) eq_refl eq_refl).
Defined.

(** ** Discovery of the interpreter *)

Lemma mem_snoc y x bp : mem y (bp ++ [x]) = mem y (x :: bp).
Proof.
  unfold mem. rewrite existsb_app. simpl. rewrite orb_false_r.
  apply orb_comm.
Qed.

Lemma fresh_ext xs : forall s1 s2,
  (forall y, mem y s1 = mem y s2) -> fresh s1 xs = fresh s2 xs.
Proof.
  induction xs as [|x xs IH]; intros s1 s2 H; simpl; auto.
  rewrite (H x). destruct (mem x s2); auto.
  f_equal. apply IH. intro y. unfold mem in *. simpl. rewrite (H y).
  reflexivity.
Qed.

Lemma insert_front_new_fresh xs : forall bp,
  insert_front_new xs bp = (rev (fresh bp xs) ++ bp)%list.
Proof.
  unfold insert_front_new.
  induction xs as [|x xs IH]; intro bp; simpl; auto.
  destruct (mem x bp); rewrite IH; auto.
  simpl. rewrite <- app_assoc. reflexivity.
Qed.

Lemma append_new_fresh xs : forall bp,
  append_new xs bp = (bp ++ fresh bp xs)%list.
Proof.
  unfold append_new.
  induction xs as [|x xs IH]; intro bp; simpl.
  - rewrite app_nil_r. reflexivity.
  - destruct (mem x bp); rewrite IH; auto.
    rewrite <- app_assoc. simpl. f_equal. f_equal.
    apply fresh_ext. intro y. apply mem_snoc.
Qed.

Lemma bash_paths_search_order E : bash_paths E = search_order E.
Proof.
  unfold bash_paths, search_order, locate_results.
  destruct (win32 E).
  - destruct (run_where_bash E) as [[rc out]|]; [|reflexivity].
    destruct ((rc =? 0)%Z && truthy out); [|reflexivity].
    cbv zeta. destruct (filter is_git_bash _) as [|g git].
    + apply append_new_fresh.
    + apply insert_front_new_fresh.
  - destruct (run_which_bash E) as [[rc out]|]; [|reflexivity].
    destruct ((rc =? 0)%Z && truthy out); [|reflexivity].
    cbv zeta. cbn [fresh]. destruct (mem (strip out) well_known_posix);
      reflexivity.
Qed.

(** C8, as the specification has it, fails twice: the path that [which]
    reports is tried before the well-known locations, and an override that
    exists is returned though it is not executable. *)
Lemma discovery_order_differs_from_claim :
  _find_bash homebrew_host = Some "/opt/homebrew/bin/bash"
  /\ claimed_find_bash homebrew_host = Some "/bin/bash"
  /\ _find_bash homebrew_host <> claimed_find_bash homebrew_host
  /\ _find_bash override_host = Some "/data/bash.txt"
  /\ claimed_find_bash override_host = Some "/bin/bash"
  /\ _find_bash override_host <> claimed_find_bash override_host.
Proof. repeat split; discriminate. Qed.

(** C8, amended.  An override that is set, non-empty and exists is returned
    without a test that it is executable.  Otherwise the result is the
    first path of the search order that, stripped, is non-empty, exists and
    is executable: the located paths that are new come before the
    well-known locations, except on Windows when none of them is a
    Git-for-Windows path, where they come after; when the search finds
    nothing the probe of [bash] decides, and when the probe fails no
    interpreter is reported. *)
Theorem find_bash_discovery_order E :
  (override_accepted E = true ->
   exists o, getenv_BASH_EXEC_PATH E = Some o /\ _find_bash E = Some o)
  /\ (override_accepted E = false ->
      _find_bash E =
      match find (usable E) (search_order E) with
      | Some path => Some (strip path)
      | None =>
          match run_bash_version E with
          | Some 0%Z => Some "bash"
          | _ => None
          end
      end).
Proof.
  unfold override_accepted, _find_bash, search_bash_paths, probe_bash.
  rewrite bash_paths_search_order.
  destruct (getenv_BASH_EXEC_PATH E) as [o|].
  - destruct (truthy o && path_exists E o); split; intro H;
      try discriminate; eauto.
  - split; intro H; [discriminate|reflexivity].
Qed.

Example find_bash_discovery_order_witness :
  override_accepted homebrew_host = false
  /\ search_order homebrew_host
     = ["/opt/homebrew/bin/bash"; "/bin/bash"; "/usr/bin/bash";
        "/usr/local/bin/bash"]
  /\ _find_bash homebrew_host =
     match find (usable homebrew_host) (search_order homebrew_host) with
     | Some path => Some (strip path)
     | None =>
         match run_bash_version homebrew_host with
         | Some 0%Z => Some "bash"
         | _ => None
         end
     end.
Proof.
  split; [reflexivity|]. split; [reflexivity|].
  exact (proj2 (find_bash_discovery_order homebrew_host) eq_refl).
Defined.

(** * Further properties *)

(** ** More on strings *)

Lemma app_assoc_s (a b c : string) : (a ++ b) ++ c = a ++ (b ++ c).
Proof. induction a; simpl; congruence. Qed.

Lemma app_empty_r (a : string) : a ++ "" = a.
Proof. induction a; simpl; congruence. Qed.

Lemma lower_char_idem c : lower_char (lower_char c) = lower_char c.
Proof. destruct c as [[] [] [] [] [] [] [] []]; reflexivity. Qed.

Lemma lower_idem s : lower (lower s) = lower s.
Proof. induction s; simpl; rewrite ?lower_char_idem; congruence. Qed.

Lemma lower_app a b : lower (a ++ b) = lower a ++ lower b.
Proof. induction a; simpl; congruence. Qed.

Lemma lstrip_all_space s : all_space s = true -> lstrip s = "".
Proof.
  unfold all_space. induction s as [|c s IH]; simpl; auto.
  intro H. apply andb_prop in H. destruct H as [-> H]. auto.
Qed.

Lemma lstrip_app a b :
  lstrip (a ++ b) = if all_space a then lstrip b else lstrip a ++ b.
Proof.
  unfold all_space. induction a as [|c a IH]; simpl; auto.
  destruct (isspace c); simpl; auto.
Qed.

Lemma rstrip_all_space s : all_space s = true -> rstrip s = "".
Proof.
  unfold all_space. induction s as [|c s IH]; simpl; auto.
  intro H. apply andb_prop in H. destruct H as [-> H]. rewrite IH; auto.
Qed.

Lemma rstrip_app_space a ws : all_space ws = true -> rstrip (a ++ ws) = rstrip a.
Proof.
  intro H. induction a as [|c a IH]; simpl.
  - apply rstrip_all_space; exact H.
  - rewrite IH. reflexivity.
Qed.

Lemma strip_padded ws1 c ws2 :
  all_space ws1 = true -> all_space ws2 = true ->
  strip (ws1 ++ c ++ ws2) = strip c.
Proof.
  intros H1 H2. unfold strip. rewrite lstrip_app, H1, lstrip_app.
  destruct (all_space c) eqn:Hc.
  - rewrite (lstrip_all_space _ H2), (lstrip_all_space _ Hc). reflexivity.
  - apply rstrip_app_space; exact H2.
Qed.

Lemma all_space_lower s : all_space (lower s) = all_space s.
Proof.
  unfold all_space. induction s as [|c s IH]; simpl; auto.
  rewrite isspace_lower_char, IH. reflexivity.
Qed.

(** ** Further properties of the security gate *)

(** X1.  The decision of the gate is the same for a command and for its
    lower-cased form, and the same for a command with and without white
    space around it: neither upper case nor padding gets a command past the
    gate. *)
Theorem gate_ignores_case_and_padding :
  (forall command, is_dangerous_command_type (lower command)
                   = is_dangerous_command_type command)
  /\ (forall ws1 command ws2,
         all_space ws1 = true -> all_space ws2 = true ->
         is_dangerous_command_type (ws1 ++ command ++ ws2)
         = is_dangerous_command_type command).
Proof.
  split.
  - intro command. unfold is_dangerous_command_type. rewrite lower_idem. reflexivity.
  - intros ws1 command ws2 H1 H2. unfold is_dangerous_command_type.
    rewrite !lower_app, strip_padded; auto; rewrite all_space_lower; auto.
Qed.


Example gate_ignores_case_and_padding_witness :
  all_space "  " = true
  /\ all_space LF = true
  /\ is_dangerous_command_type ("  " ++ "Rm -rf /" ++ LF)
     = is_dangerous_command_type "Rm -rf /".
Proof.
  split; [reflexivity|]. split; [reflexivity|].
  exact (proj2 gate_ignores_case_and_padding "  " "Rm -rf /" LF
           eq_refl eq_refl).
Defined.

Lemma prefix_contains sub s : String.prefix sub s = true -> contains sub s = true.
Proof.
  intro H. destruct s as [|c s].
  - destruct sub; [reflexivity|discriminate].
  - rewrite contains_cons, H. reflexivity.
Qed.

Lemma contains_app sub a b : contains sub (a ++ sub ++ b) = true.
Proof.
  induction a as [|c a IH].
  - apply prefix_contains. exact (prefix_app sub b).
  - change (contains sub (String c (a ++ sub ++ b)) = true).
    rewrite contains_cons, IH. apply orb_true_r.
Qed.

Lemma contains_split sub s :
  contains sub s = true -> exists a b, s = a ++ sub ++ b.
Proof.
  intro H. destruct (split_before_first _ _ H) as [post Hp].
  eauto.
Qed.

Lemma rstrip_keeps u c y :
  isspace c = false -> exists z, rstrip (u ++ String c y) = u ++ String c z.
Proof.
  intro Hc. induction u as [|a u [z IH]].
  - simpl. rewrite Hc. destruct (rstrip y); eauto.
  - simpl. rewrite IH. destruct u; simpl; eauto.
Qed.

Lemma strip_keeps first u c y :
  isspace first = false -> isspace c = false ->
  exists z, strip (String first u ++ String c y) = String first u ++ String c z.
Proof.
  intros Hf Hc. unfold strip.
  change (lstrip (String first u ++ String c y))
    with (if isspace first then lstrip (u ++ String c y)
          else String first u ++ String c y).
  rewrite Hf. apply rstrip_keeps; exact Hc.
Qed.

Lemma gate_open command :
  startswith (strip (lower command)) "rm " = true
  \/ startswith (strip (lower command)) "mv " = true ->
  contains "-i" (strip (lower command)) = true ->
  is_dangerous_command_type command = false.
Proof.
  unfold is_dangerous_command_type, has_interactive_flag.
  generalize (strip (lower command)); intros c H Hi. rewrite Hi.
  destruct (existsb (startswith c) dangerous_prefixes); [|reflexivity].
  destruct H as [-> | ->]; [reflexivity|].
  destruct (startswith c "rm "); reflexivity.
Qed.

Lemma strip_lower_keeps_flag first p a b :
  isspace first = false ->
  lower (String first p) = String first p ->
  exists z,
    strip (lower (String first p ++ a ++ "-i" ++ b))
    = String first p ++ lower a ++ "-i" ++ z.
Proof.
  intros Hf Hl.
  destruct (strip_keeps first (p ++ lower a ++ "-") "i" (lower b) Hf eq_refl)
    as [z Hz].
  exists z.
  replace (lower (String first p ++ a ++ "-i" ++ b))
    with (String first (p ++ lower a ++ "-") ++ String "i" (lower b)).
  - rewrite Hz. cbn. rewrite !app_assoc_s. reflexivity.
  - rewrite !lower_app, Hl. cbn. rewrite !app_assoc_s. reflexivity.
Qed.

(** X2.  The interactive flag is looked for as a substring of the whole
    command: every [rm] or [mv] command in which the two characters [-i]
    occur anywhere, in an option or inside a file name, passes the gate. *)
Theorem flag_substring_lets_delete_through a b :
  is_dangerous_command_type ("rm " ++ a ++ "-i" ++ b) = false
  /\ is_dangerous_command_type ("mv " ++ a ++ "-i" ++ b) = false.
Proof.
  split.
  - destruct (strip_lower_keeps_flag "r" "m " a b eq_refl eq_refl) as [z Hz].
    apply gate_open; rewrite Hz.
    + left. exact (prefix_app "rm " _).
    + change (contains "-i" (("rm " ++ lower a) ++ "-i" ++ z) = true).
      apply contains_app.
  - destruct (strip_lower_keeps_flag "m" "v " a b eq_refl eq_refl) as [z Hz].
    apply gate_open; rewrite Hz.
    + right. exact (prefix_app "mv " _).
    + change (contains "-i" (("mv " ++ lower a) ++ "-i" ++ z) = true).
      apply contains_app.
Qed.

(** X3.  The test for [--interactive] never decides anything: a command
    that contains [--interactive] contains [-i], so the flag test is the
    test for [-i] alone. *)
Theorem interactive_long_flag_is_redundant c :
  has_interactive_flag c = contains "-i" c.
Proof.
  unfold has_interactive_flag.
  destruct (contains "--interactive" c) eqn:H; [|apply orb_false_r].
  destruct (contains_split _ _ H) as (a & b & ->).
  change (a ++ "--interactive" ++ b) with (a ++ "-" ++ "-i" ++ "nteractive" ++ b).
  rewrite <- (app_assoc_s a "-"). rewrite contains_app. reflexivity.
Qed.


Lemma restart_while_locked E w : lock_held w = true -> restart E w = Blocked.
Proof. intro H. unfold restart, bind. rewrite close_while_locked; auto. Qed.

(** ** [_run] and the lock *)

(** X4.  [_run] never returns on the reserved command [terminate_session]
    (with or without white space around it): it holds the lock when it
    calls [close], which waits for the same lock. *)
Theorem run_terminate_session_blocks E command polls recovery w :
  strip command = "terminate_session" ->
  _run E command polls recovery w = Blocked.
Proof.
  intro H. unfold _run, with_lock.
  replace (String.eqb (strip command) "terminate_session") with true
    by (rewrite H; reflexivity).
  destruct (lock_held w); [reflexivity|].
  unfold terminate_session, bind. rewrite restart_while_locked; reflexivity.
Qed.


Example run_terminate_session_blocks_witness :
  strip ("  terminate_session" ++ LF) = "terminate_session"
  /\ _run linux_host ("  terminate_session" ++ LF) [] [] session0 = Blocked.
Proof.
  split; [reflexivity|].
  exact (run_terminate_session_blocks linux_host
           ("  terminate_session" ++ LF) [] [] session0 eq_refl).
Defined.

(** X5.  For a command that passes the gate, [_run] never returns when the
    session is not running at entry, or when the write of the command to
    the child's stdin fails: both paths call [close] while [_run] holds the
    lock. *)
Theorem run_blocks_when_restart_needed E command polls recovery w :
  String.eqb (strip command) "terminate_session" = false ->
  is_dangerous_command_type command = false ->
  live_process w = None
  \/ (exists p e, live_process w = Some p /\ write_error p = Some e) ->
  _run E command polls recovery w = Blocked.
Proof.
  intros Ht Hd H. unfold _run, with_lock. rewrite Ht, Hd.
  destruct (lock_held w); [reflexivity|].
  destruct H as [Hn | (p & e & Hp & He)].
  - unfold _execute_raw_command_in_session, bind, running.
    replace (live_process (set_lock true w)) with (live_process w) by reflexivity.
    rewrite Hn, restart_while_locked; reflexivity.
  - rewrite (execute_write_failed E command 20 polls recovery (set_lock true w) p e Hp He).
    cbv zeta. rewrite restart_while_locked; reflexivity.
Qed.


Example run_blocks_when_restart_needed_witness :
  String.eqb (strip "ls") "terminate_session" = false
  /\ is_dangerous_command_type "ls" = false
  /\ live_process fresh_tool = None
  /\ _run linux_host "ls" [] [] fresh_tool = Blocked.
Proof.
  split; [reflexivity|]. split; [reflexivity|]. split; [reflexivity|].
  exact (run_blocks_when_restart_needed linux_host "ls" [] [] fresh_tool
           eq_refl eq_refl (or_introl eq_refl)).
Defined.

Lemma relock w ev1 ev2 :
  lock_held w = false ->
  set_lock false (emit ev2 (emit ev1 (tick (set_queue [] (set_lock true w)))))
  = emit ev2 (emit ev1 (tick (set_queue [] w))).
Proof. destruct w; simpl; intros ->; reflexivity. Qed.

(** X6.  On a running session whose stdin takes the write, and for a
    command that passes the gate, [_run] returns exactly when the polling
    loop does not see the child dead; it then returns what the executor
    called directly returns, with the same world, the lock released. *)
Theorem run_returns_unless_child_dies E command polls recovery w p :
  lock_held w = false ->
  String.eqb (strip command) "terminate_session" = false ->
  is_dangerous_command_type command = false ->
  live_process w = Some p ->
  write_error p = None ->
  match await_marker (unique_end_marker (time_ns E (clock_reads w)) (getpid E))
          polls ([], []) with
  | Died _ _ => _run E command polls recovery w = Blocked
  | _ => _run E command polls recovery w
         = _execute_raw_command_in_session E command 20 polls recovery w
  end.
Proof.
  intros Hl Ht Hd Hp Hw.
  destruct (await_marker _ polls ([], [])) as [b|rc b|b] eqn:Ha.
  - unfold _run, with_lock. rewrite Ht, Hd, Hl.
    rewrite (execute_live E command 20 polls recovery (set_lock true w) p Hp Hw),
            (execute_live E command 20 polls recovery w p Hp Hw).
    cbv zeta.
    replace (clock_reads (set_lock true w)) with (clock_reads w) by reflexivity.
    rewrite !(collect_completed _ _ _ _ _ _ Ha).
    f_equal. destruct w; simpl in *; subst; reflexivity.
  - eapply run_crash_never_returns; eauto.
  - unfold _run, with_lock. rewrite Ht, Hd, Hl.
    rewrite (execute_live E command 20 polls recovery (set_lock true w) p Hp Hw),
            (execute_live E command 20 polls recovery w p Hp Hw).
    cbv zeta.
    replace (clock_reads (set_lock true w)) with (clock_reads w) by reflexivity.
    rewrite !(collect_timed_out _ _ _ _ _ p b); auto;
      try (simpl; apply live_bash_process; exact Hp).
    f_equal. destruct w; simpl in *; subst; reflexivity.
Qed.


Example run_returns_unless_child_dies_witness :
  lock_held session0 = false
  /\ String.eqb (strip "sleep 9") "terminate_session" = false
  /\ is_dangerous_command_type "sleep 9" = false
  /\ live_process session0 = Some (child 5)
  /\ write_error (child 5) = None
  /\ _run linux_host "sleep 9" [Empty None] [None] session0
     = _execute_raw_command_in_session linux_host "sleep 9" 20 [Empty None]
         [None] session0.
Proof.
  split; [reflexivity|]. split; [reflexivity|]. split; [reflexivity|].
  split; [reflexivity|]. split; [reflexivity|].
  exact (run_returns_unless_child_dies linux_host "sleep 9" [Empty None]
           [None] session0 (child 5) eq_refl eq_refl eq_refl eq_refl eq_refl).
Defined.

Lemma never_empty_ret s : s <> "" -> never_empty (ret s).
Proof. intros H w r w' E. injection E as <- _. exact H. Qed.

Lemma never_empty_bind {A} (m : M A) k :
  (forall a, never_empty (k a)) -> never_empty (bind m k).
Proof.
  intros H w r w' E. unfold bind in E. destruct (m w) as [a w1|]; [|discriminate].
  eapply H; eauto.
Qed.

Lemma never_empty_with_lock m : never_empty m -> never_empty (with_lock m).
Proof.
  intros H w r w' E. unfold with_lock in E. destruct (lock_held w); [discriminate|].
  destruct (m (set_lock true w)) as [a w1|] eqn:Em; [|discriminate].
  injection E as <- _. eapply H; eauto.
Qed.

Lemma compose_result_nonempty out err : compose_result out err <> "".
Proof.
  unfold compose_result. destruct err, out; simpl; discriminate.
Qed.

Lemma collect_never_empty marker timeout polls recovery :
  never_empty (collect marker timeout polls recovery).
Proof.
  unfold collect. destruct (await_marker marker polls ([], [])).
  - apply never_empty_ret, compose_result_nonempty.
  - apply never_empty_bind; intro. apply never_empty_bind; intro.
    apply never_empty_ret. discriminate.
  - apply never_empty_bind; intro. apply never_empty_ret. discriminate.
Qed.

Lemma execute_never_empty E command timeout polls recovery :
  never_empty (_execute_raw_command_in_session E command timeout polls recovery).
Proof.
  unfold _execute_raw_command_in_session. apply never_empty_bind; intros _.
  intros w r w'. destruct (live_process w) as [p|].
  2:{ intro H; injection H as <- _. discriminate. }
  apply never_empty_bind. intros [e|].
  - apply never_empty_bind; intros _. intros w1 r1 w1'.
    destruct (live_process w1) as [p'|].
    + apply never_empty_bind. intros [e2|].
      * apply never_empty_ret. discriminate.
      * apply collect_never_empty.
    + intro H; injection H as <- _. discriminate.
  - apply collect_never_empty.
Qed.

(** X7.  Whatever [_run] returns is a non-empty text: a rejection, a status
    of the session reset, an error text, the output of the command, or the
    fixed text for a command without output. *)
Theorem run_result_is_never_empty E command polls recovery w r w' :
  _run E command polls recovery w = Returns r w' -> r <> "".
Proof.
  revert w r w'. change (never_empty (_run E command polls recovery)).
  unfold _run. apply never_empty_with_lock.
  destruct (String.eqb _ _).
  - unfold terminate_session. apply never_empty_bind; intros _.
    intros w r w'. destruct (running w); intro H; injection H as <- _; discriminate.
  - destruct (is_dangerous_command_type command).
    + apply never_empty_ret. discriminate.
    + apply execute_never_empty.
Qed.


Example run_result_is_never_empty_witness :
  _run linux_host "true"
    [Got (STDOUT, "__END_OF_COMMAND_OUTPUT_1000_77__" ++ LF)] [] session0
  = Returns "命令执行成功，但没有输出。"
      (mkWorld (Some (child 5)) [] false 1 0
         [StdinWrite 5
            ("true" ++ LF ++ "echo __END_OF_COMMAND_OUTPUT_1000_77__" ++ LF)
            true])
  /\ "命令执行成功，但没有输出。" <> "".
Proof.
  split; [reflexivity|].
  exact (run_result_is_never_empty linux_host "true"
           [Got (STDOUT, "__END_OF_COMMAND_OUTPUT_1000_77__" ++ LF)] []
           session0 _ _ eq_refl).
Defined.
(** ** Further properties of the executor *)

(** X8.  Called with the lock free on a session that is not running, the
    executor returns the start-failure text when no bash is found, when
    [Popen] raises, or when the first write to the new child fails; in none
    of these cases is the command written to any stdin, and the tool is
    left without a process handle. *)
Theorem start_failure_writes_no_command E command timeout polls recovery w :
  lock_held w = false ->
  live_process w = None ->
  (_find_bash E = None ->
   _execute_raw_command_in_session E command timeout polls recovery w
   = Returns start_failed_text (set_process None w))
  /\ (forall path, _find_bash E = Some path ->
        popen E (popen_calls w) path = None ->
        _execute_raw_command_in_session E command timeout polls recovery w
        = Returns start_failed_text
            (set_process None (emit [Spawn path None] (count_popen w))))
  /\ (forall path p e, _find_bash E = Some path ->
        popen E (popen_calls w) path = Some p ->
        write_error p = Some e ->
        _execute_raw_command_in_session E command timeout polls recovery w
        = Returns start_failed_text
            (set_process None
               (emit [Spawn path (Some (pid p));
                      StdinWrite (pid p)
                        ("echo " ++ init_marker (time_ns E (clock_reads w)) ++ LF)
                        false]
                  (tick (set_queue [] (count_popen w)))))).
Proof.
  intros Hl Hn.
  assert (Hr : running w = false) by (unfold running; rewrite Hn; reflexivity).
  assert (Hc : close true w = Returns "Bash会话已关闭。" w)
    by (apply close_not_running; assumption).
  repeat split.
  - intro Hf. unfold _execute_raw_command_in_session, bind at 1.
    rewrite Hr. unfold restart, bind at 1. rewrite Hc.
    unfold _start_session, with_lock. rewrite Hl.
    replace (running (set_lock true w)) with (running w) by reflexivity.
    rewrite Hr, Hf. cbn. destruct w; simpl in *; subst; reflexivity.
  - intros path Hf Hpo. unfold _execute_raw_command_in_session, bind at 1.
    rewrite Hr. unfold restart, bind at 1. rewrite Hc.
    unfold _start_session, with_lock. rewrite Hl.
    replace (running (set_lock true w)) with (running w) by reflexivity.
    replace (popen_calls (set_lock true w)) with (popen_calls w) by reflexivity.
    rewrite Hr, Hf, Hpo. cbn. destruct w; simpl in *; subst; reflexivity.
  - intros path p e Hf Hpo He. unfold _execute_raw_command_in_session, bind at 1.
    rewrite Hr. unfold restart, bind at 1. rewrite Hc.
    unfold _start_session, with_lock. rewrite Hl.
    replace (running (set_lock true w)) with (running w) by reflexivity.
    replace (popen_calls (set_lock true w)) with (popen_calls w) by reflexivity.
    rewrite Hr, Hf, Hpo. unfold stdin_write. rewrite He. cbn.
    destruct w; simpl in *; subst.
    unfold set_lock, set_process, emit, tick, set_queue, count_popen; cbn.
    rewrite <- app_assoc. reflexivity.
Qed.


Example start_failure_writes_no_command_witness :
  lock_held fresh_tool = false
  /\ live_process fresh_tool = None
  /\ _find_bash no_bash_host = None
  /\ _execute_raw_command_in_session no_bash_host "ls" 20 [] [] fresh_tool
     = Returns "错误: Bash会话未能启动或重启，无法执行命令。" fresh_tool.
Proof.
  split; [reflexivity|]. split; [reflexivity|]. split; [reflexivity|].
  exact (proj1 (start_failure_writes_no_command no_bash_host "ls" 20%Z [] []
                  fresh_tool eq_refl eq_refl) eq_refl).
Defined.

Lemma await_marker_demux marker items : forall rest b,
  marker_free marker items = true ->
  await_marker marker (map Got items ++ rest) b
  = await_marker marker rest
      ((fst b ++ lines_of STDOUT items)%list, (snd b ++ lines_of STDERR items)%list).
Proof.
  induction items as [|[s line] items IH]; intros rest [out err] H.
  - simpl. rewrite !app_nil_r. reflexivity.
  - simpl in H. apply andb_prop in H. destruct H as [Hm H].
    apply negb_true_iff in Hm. cbn [map app await_marker snd fst].
    rewrite Hm, IH by exact H.
    destruct s; cbn [push fst snd lines_of filter stream_eqb map];
      unfold lines_of; rewrite <- app_assoc; reflexivity.
Qed.


(** X9.  Queue entries that do not contain the marker are sorted by the
    polling loop into the two buffers by their stream tag, each stream in the
    order of the queue: the buffers after them depend only on the two
    per-stream sequences, not on how the streams interleave. *)
Theorem polling_separates_streams marker items rest b :
  marker_free marker items = true ->
  await_marker marker (map Got items ++ rest) b
  = await_marker marker rest
      ((fst b ++ lines_of STDOUT items)%list,
       (snd b ++ lines_of STDERR items)%list).
Proof. apply await_marker_demux. Qed.

Example polling_separates_streams_witness :
  marker_free "__M__"
    [(STDERR, "e1" ++ LF); (STDOUT, "o1" ++ LF); (STDERR, "e2" ++ LF)] = true
  /\ await_marker "__M__"
       (map Got [(STDERR, "e1" ++ LF); (STDOUT, "o1" ++ LF);
                 (STDERR, "e2" ++ LF)] ++ [Empty (Some 3%Z)]) (["o0"], [])
     = Died 3 (["o0"; "o1" ++ LF], ["e1" ++ LF; "e2" ++ LF]).
Proof.
  split; [reflexivity|].
  exact (polling_separates_streams "__M__"
           [(STDERR, "e1" ++ LF); (STDOUT, "o1" ++ LF); (STDERR, "e2" ++ LF)]
           [Empty (Some 3%Z)] (["o0"], []) eq_refl).
Defined.

(** X10.  Turns of the polling loop that find the queue empty and the
    child alive have no effect on how the loop ends nor on the buffers. *)
Theorem idle_turns_change_nothing marker polls : forall b,
  await_marker marker (filter (fun o => negb (idle o)) polls) b
  = await_marker marker polls b.
Proof.
  induction polls as [|[item|[rc|]] polls IH]; intro b; cbn; auto.
  destruct (contains marker (snd item)); auto.
Qed.








(** ** Further properties of [close] and [_start_session] *)




(** X13.  [_start_session] called with the lock free leaves one of three
    states: on a running session, the world as it was; or no process handle,
    with at most one [Popen] call made; or a child obtained from one [Popen]
    call on the discovered interpreter, a new empty queue, and the echo of
    the init marker accepted by the child's stdin as the only write. *)
Theorem start_session_outcomes E w w' :
  lock_held w = false ->
  _start_session E w = Returns tt w' ->
  (running w = true /\ w' = w)
  \/ (running w = false /\ bash_process w' = None
      /\ popen_calls w' <= S (popen_calls w))
  \/ (running w = false
      /\ exists path p,
          _find_bash E = Some path
          /\ popen E (popen_calls w) path = Some p
          /\ write_error p = None
          /\ bash_process w' = Some p
          /\ output_queue w' = []
          /\ popen_calls w' = S (popen_calls w)
          /\ log w' =
             (log w ++
              [Spawn path (Some (pid p));
               StdinWrite (pid p)
                 ("echo " ++ init_marker (time_ns E (clock_reads w)) ++ LF)
                 true])%list).
Proof.
  intros Hl. unfold _start_session, with_lock. rewrite Hl.
  replace (running (set_lock true w)) with (running w) by reflexivity.
  destruct (running w) eqn:Hr.
  { intro H; injection H as <-. left. split; auto. apply unlock_lock; exact Hl. }
  destruct (_find_bash E) as [bash_path|].
  2:{ intro H; injection H as <-. right; left. cbn. auto. }
  replace (popen_calls (set_lock true w)) with (popen_calls w) by reflexivity.
  destruct (popen E (popen_calls w) bash_path) as [p|] eqn:Hpo.
  2:{ intro H; injection H as <-. right; left. cbn. auto. }
  unfold stdin_write. destruct (write_error p) eqn:He.
  - intro H; injection H as <-. right; left. cbn. auto.
  - intro H; injection H as <-. right; right. split; auto.
    exists bash_path, p. cbn. rewrite <- app_assoc. repeat split; auto.
Qed.


Example start_session_outcomes_witness :
  lock_held fresh_tool = false
  /\ _start_session linux_host fresh_tool
     = Returns tt
         (mkWorld (Some (child 100)) [] false 1 1
            [Spawn "/bin/bash" (Some 100%N);
             StdinWrite 100 ("echo __INIT_MARKER_1000__" ++ LF) true])
  /\ exists path p,
      _find_bash linux_host = Some path
      /\ popen linux_host 0 path = Some p
      /\ write_error p = None.
Proof.
  split; [reflexivity|].
  assert (H0 : _start_session linux_host fresh_tool
               = Returns tt
                   (mkWorld (Some (child 100)) [] false 1 1
                      [Spawn "/bin/bash" (Some 100%N);
                       StdinWrite 100 ("echo __INIT_MARKER_1000__" ++ LF) true]))
    by reflexivity.
  destruct (start_session_outcomes linux_host fresh_tool _ eq_refl H0)
    as [[H _] | [(_ & H & _) | (_ & path & p & H1 & H2 & H3 & _)]].
  - discriminate H.
  - discriminate H.
  - split; [exact H0|]. exists path, p. auto.
Defined.

(** ** Further properties of [_find_bash] *)

(** X14.  A path returned by [_find_bash] is the override, which is
    non-empty and exists; or a non-empty path that exists and is executable;
    or the bare name [bash], after the probe [bash --version] returned 0. *)
Theorem find_bash_sound E path :
  _find_bash E = Some path ->
  (getenv_BASH_EXEC_PATH E = Some path /\ path <> ""
   /\ path_exists E path = true)
  \/ (path <> "" /\ path_exists E path = true /\ access_X_OK E path = true)
  \/ (path = "bash" /\ run_bash_version E = Some 0%Z).
Proof.
  assert (S : search_bash_paths E = Some path ->
              (path <> "" /\ path_exists E path = true
               /\ access_X_OK E path = true)
              \/ (path = "bash" /\ run_bash_version E = Some 0%Z)).
  { unfold search_bash_paths, probe_bash.
    destruct (find (usable E) (bash_paths E)) as [p0|] eqn:Hf.
    - intro H; injection H as <-. left.
      apply find_some in Hf. destruct Hf as [_ Hu]. unfold usable in Hu.
      apply andb_prop in Hu. destruct Hu as [Hu Hx].
      apply andb_prop in Hu. destruct Hu as [Ht He].
      repeat split; auto. intro E0. rewrite E0 in Ht. discriminate.
    - destruct (run_bash_version E) as [[| |]|]; try discriminate.
      intro H; injection H as <-. right. auto. }
  unfold _find_bash. destruct (getenv_BASH_EXEC_PATH E) as [o|].
  - destruct (truthy o && path_exists E o) eqn:Ho.
    + intro H; injection H as <-. left.
      apply andb_prop in Ho. destruct Ho as [Ht He].
      repeat split; auto. intro E0. rewrite E0 in Ht. discriminate.
    + intro H. right. auto.
  - intro H. right. auto.
Qed.


Example find_bash_sound_witness :
  _find_bash override_host = Some "/data/bash.txt"
  /\ ((getenv_BASH_EXEC_PATH override_host = Some "/data/bash.txt"
       /\ "/data/bash.txt" <> ""
       /\ path_exists override_host "/data/bash.txt" = true)
      \/ ("/data/bash.txt" <> ""
          /\ path_exists override_host "/data/bash.txt" = true
          /\ access_X_OK override_host "/data/bash.txt" = true)
      \/ ("/data/bash.txt" = "bash"
          /\ run_bash_version override_host = Some 0%Z)).
Proof.
  split; [reflexivity|].
  exact (find_bash_sound override_host "/data/bash.txt" eq_refl).
Defined.

Lemma well_known_in_search_order E path :
  In path (if win32 E then well_known_windows else well_known_posix) ->
  In path (search_order E).
Proof.
  unfold search_order. destruct (win32 E).
  - destruct (filter is_git_bash (locate_results E)); intro H;
      apply in_or_app; auto.
  - intro H. apply in_or_app; auto.
Qed.

(** X15.  If one of the well-known locations of the platform exists and is
    executable, [_find_bash] finds an interpreter, whatever the override and
    the locate program say. *)
Theorem find_bash_finds_well_known E path :
  In path (if win32 E then well_known_windows else well_known_posix) ->
  path_exists E path = true ->
  access_X_OK E path = true ->
  exists found, _find_bash E = Some found.
Proof.
  intros Hin He Hx.
  assert (Hs : strip path = path /\ truthy path = true).
  { destruct (win32 E); simpl in Hin;
      repeat (destruct Hin as [<- | Hin]; [split; reflexivity|]); destruct Hin. }
  destruct Hs as [Hs Ht].
  assert (Hu : usable E path = true).
  { unfold usable. rewrite Hs, Ht, He, Hx. reflexivity. }
  assert (S : exists found, search_bash_paths E = Some found).
  { unfold search_bash_paths.
    destruct (find (usable E) (bash_paths E)) as [p0|] eqn:Hf; [eauto|].
    exfalso. rewrite bash_paths_search_order in Hf.
    pose proof (find_none _ _ Hf path (well_known_in_search_order E path Hin)).
    congruence. }
  unfold _find_bash. destruct (getenv_BASH_EXEC_PATH E) as [o|]; auto.
  destruct (truthy o && path_exists E o); eauto.
Qed.


Example find_bash_finds_well_known_witness :
  In "/usr/bin/bash"
     (if win32 homebrew_host then well_known_windows else well_known_posix)
  /\ path_exists homebrew_host "/usr/bin/bash" = true
  /\ access_X_OK homebrew_host "/usr/bin/bash" = true
  /\ exists found, _find_bash homebrew_host = Some found.
Proof.
  split; [right; left; reflexivity|]. split; [reflexivity|].
  split; [reflexivity|].
  exact (find_bash_finds_well_known homebrew_host "/usr/bin/bash"
           (or_intror (or_introl eq_refl)) eq_refl eq_refl).
Defined.

Lemma lacks_app c a b : lacks c a -> lacks c b -> lacks c (a ++ b).
Proof. induction a; simpl; intuition. Qed.

Lemma lacks_app_inv c a b : lacks c (a ++ b) -> lacks c a /\ lacks c b.
Proof. induction a; simpl; intuition. Qed.

Lemma string_of_uint_digits c d :
  (Nat.ltb (nat_of_ascii c) 48 || Nat.ltb 57 (nat_of_ascii c)) = true ->
  lacks c (NilEmpty.string_of_uint d).
Proof.
  intro H. induction d; simpl; auto; split; auto;
    intros <-; discriminate.
Qed.

Lemma contains_lacks c sub s :
  contains sub s = true -> lacks c s -> lacks c sub.
Proof.
  intros H L. destruct (contains_split _ _ H) as (a & b & ->).
  apply lacks_app_inv in L. destruct L as [_ L].
  apply lacks_app_inv in L. tauto.
Qed.

Lemma contains_skip sub c s :
  String.prefix sub (String c s) = false ->
  contains sub (String c s) = contains sub s.
Proof. intro H. rewrite contains_cons, H. reflexivity. Qed.

Lemma marker_cut t1 p1 r1 t2 p2 r2 :
  str_N t1 ++ "_" ++ str_N p1 ++ "__" ++ r1
  = str_N t2 ++ "_" ++ str_N p2 ++ "__" ++ r2 ->
  t1 = t2 /\ p1 = p2.
Proof.
  intro H. apply app_cut in H; try apply string_of_uint_lacks.
  destruct H as [Ht H]. apply str_N_inj in Ht.
  apply app_cut in H; try apply string_of_uint_lacks.
  destruct H as [Hp _]. apply str_N_inj in Hp. auto.
Qed.

(** ** Further properties of the markers *)

(** X16.  The completion marker and the session identifier determine the
    clock reading and the process id they were built from, and the init
    marker determines its clock reading: two of them are equal only when
    built from the same numbers. *)
Theorem identifiers_are_injective t1 p1 t2 p2 :
  (unique_end_marker t1 p1 = unique_end_marker t2 p2 -> t1 = t2 /\ p1 = p2)
  /\ (session_id t1 p1 = session_id t2 p2 -> t1 = t2 /\ p1 = p2)
  /\ (init_marker t1 = init_marker t2 -> t1 = t2).
Proof.
  split; [|split].
  - unfold unique_end_marker. intro H. simpl in H.
    repeat match type of H with
           | String ?a _ = String ?a _ => injection H as H
           end.
    apply (marker_cut t1 p1 "" t2 p2 ""). exact H.
  - unfold session_id. intro H. simpl in H.
    repeat match type of H with
           | String ?a _ = String ?a _ => injection H as H
           end.
    apply app_cut in H; try apply string_of_uint_lacks.
    destruct H as [Ht Hp]. apply str_N_inj in Ht, Hp. auto.
  - unfold init_marker. intro H. simpl in H.
    repeat match type of H with
           | String ?a _ = String ?a _ => injection H as H
           end.
    apply app_cut in H; try apply string_of_uint_lacks.
    destruct H as [Ht _]. apply str_N_inj in Ht. auto.
Qed.


Example identifiers_are_injective_witness :
  session_id 5 7 = session_id 5 7 /\ (5 = 5 /\ 7 = 7)%N.
Proof.
  split; [reflexivity|].
  exact (proj1 (proj2 (identifiers_are_injective 5 7 5 7)) eq_refl).
Defined.

(** X17.  The marker of one clock reading does not occur in a line made of
    the marker of another clock reading followed by text without a capital
    E, such as the line that [echo] prints for it or for its recovery
    marker: the marker line of an earlier command cannot end the loop of a
    later one. *)
Theorem foreign_marker_never_matches t1 p1 t2 p2 rest :
  t1 <> t2 ->
  lacks "E" rest ->
  contains (unique_end_marker t2 p2) (unique_end_marker t1 p1 ++ rest) = false.
Proof.
  intros Ht Hr.
  assert (H0 : String.prefix (unique_end_marker t2 p2)
                 (unique_end_marker t1 p1 ++ rest) = false).
  { destruct (String.prefix _ _) eqn:Hp; [|reflexivity]. exfalso.
    apply prefix_split in Hp. destruct Hp as [r Hp].
    unfold unique_end_marker in Hp. rewrite !app_assoc_s in Hp. simpl in Hp.
    repeat match type of Hp with
           | String ?a _ = String ?a _ => injection Hp as Hp
           end.
    rewrite ?app_assoc_s in Hp.
    destruct (marker_cut t1 p1 rest t2 p2 r Hp). auto. }
  destruct (contains _ _) eqn:Hc; [|reflexivity]. exfalso.
  unfold unique_end_marker at 2 in Hc. unfold unique_end_marker at 2 in H0.
  rewrite !app_assoc_s in Hc, H0. simpl append in Hc, H0.
  rewrite contains_skip in Hc by exact H0.
  do 22 (rewrite contains_skip in Hc by reflexivity).
  apply (contains_lacks "E") in Hc.
  - simpl in Hc. tauto.
  - cbn [lacks]. split; [discriminate|].
    apply lacks_app; [apply string_of_uint_digits; reflexivity|].
    cbn [lacks]. split; [discriminate|].
    apply lacks_app; [apply string_of_uint_digits; reflexivity|].
    cbn [lacks]. split; [discriminate|]. split; [discriminate|]. exact Hr.
Qed.


Example foreign_marker_never_matches_witness :
  1000%N <> 1001%N
  /\ lacks "E" ("_timeout_recovery" ++ LF)
  /\ contains (unique_end_marker 1001 77)
       (unique_end_marker 1000 77 ++ "_timeout_recovery" ++ LF) = false.
Proof.
  assert (H1 : 1000%N <> 1001%N) by discriminate.
  assert (H2 : lacks "E" ("_timeout_recovery" ++ LF))
    by (cbn; repeat (split; [discriminate|]); exact I).
  split; [exact H1|]. split; [exact H2|].
  exact (foreign_marker_never_matches 1000 77 1001 77
           ("_timeout_recovery" ++ LF) H1 H2).
Defined.

Lemma recover_tagged recovery_marker obs : forall b,
  exists extra_out extra_err,
    recover recovery_marker obs b
    = ((fst b ++ extra_out)%list, (snd b ++ extra_err)%list)
    /\ Forall (fun l => startswith l "[TIMEOUT_RECOVERY_OUTPUT] " = true)
         extra_out
    /\ Forall (fun l => startswith l "[TIMEOUT_RECOVERY_ERROR] " = true)
         extra_err.
Proof.
  induction obs as [|[[s line]|] obs IH]; intros [out err].
  - exists [], []. simpl. rewrite !app_nil_r. auto.
  - cbn [recover]. destruct (contains recovery_marker line).
    + exists [], []. simpl. rewrite !app_nil_r. auto.
    + destruct s.
      * destruct (IH (push STDOUT ("[TIMEOUT_RECOVERY_OUTPUT] " ++ line)
                        (out, err))) as (xo & xe & -> & Ho & He).
        exists (("[TIMEOUT_RECOVERY_OUTPUT] " ++ line) :: xo), xe.
        cbn [push fst snd]. rewrite <- app_assoc. split; [reflexivity|].
        split; [|exact He]. constructor; [|exact Ho].
        exact (prefix_app "[TIMEOUT_RECOVERY_OUTPUT] " line).
      * destruct (IH (push STDERR ("[TIMEOUT_RECOVERY_ERROR] " ++ line)
                        (out, err))) as (xo & xe & -> & Ho & He).
        exists xo, (("[TIMEOUT_RECOVERY_ERROR] " ++ line) :: xe).
        cbn [push fst snd]. rewrite <- app_assoc. split; [reflexivity|].
        split; [exact Ho|]. constructor; [|exact He].
        exact (prefix_app "[TIMEOUT_RECOVERY_ERROR] " line).
  - cbn [recover]. apply IH.
Qed.

Lemma recover_stops_at_marker recovery_marker s line post : forall pre b,
  recovery_marker_free recovery_marker pre = true ->
  contains recovery_marker line = true ->
  recover recovery_marker (pre ++ Some (s, line) :: post) b
  = recover recovery_marker pre b.
Proof.
  induction pre as [|[[s0 l0]|] pre IH]; intros b Hf Hc.
  - cbn. rewrite Hc. reflexivity.
  - cbn in Hf. apply andb_prop in Hf. destruct Hf as [H0 Hf].
    apply negb_true_iff in H0. cbn [app recover]. rewrite H0.
    apply IH; assumption.
  - cbn in Hf. cbn [app recover]. apply IH; assumption.
Qed.

(** X18.  The recovery loop only appends to the buffers, and every line it
    appends starts with the tag of its stream, [[TIMEOUT_RECOVERY_OUTPUT]]
    or [[TIMEOUT_RECOVERY_ERROR]]; the loop ends at the first line that
    contains the recovery marker, and neither that line nor what follows it
    is added. *)
Theorem recovery_output_is_tagged_and_stops recovery_marker :
  (forall obs b,
      exists extra_out extra_err,
        recover recovery_marker obs b
        = ((fst b ++ extra_out)%list, (snd b ++ extra_err)%list)
        /\ Forall (fun l => startswith l "[TIMEOUT_RECOVERY_OUTPUT] " = true)
             extra_out
        /\ Forall (fun l => startswith l "[TIMEOUT_RECOVERY_ERROR] " = true)
             extra_err)
  /\ (forall pre s line post b,
         recovery_marker_free recovery_marker pre = true ->
         contains recovery_marker line = true ->
         recover recovery_marker (pre ++ Some (s, line) :: post) b
         = recover recovery_marker pre b).
Proof.
  split.
  - intros. apply recover_tagged.
  - intros. apply recover_stops_at_marker; assumption.
Qed.


Example recovery_output_is_tagged_and_stops_witness :
  recovery_marker_free "__R__" [None; Some (STDERR, "^C" ++ LF)] = true
  /\ contains "__R__" ("__R__" ++ LF) = true
  /\ recover "__R__"
       ([None; Some (STDERR, "^C" ++ LF)]
        ++ Some (STDOUT, "__R__" ++ LF) :: [Some (STDOUT, "late" ++ LF)])
       (["a"], [])
     = recover "__R__" [None; Some (STDERR, "^C" ++ LF)] (["a"], []).
Proof.
  split; [reflexivity|]. split; [reflexivity|].
  exact (proj2 (recovery_output_is_tagged_and_stops "__R__")
           [None; Some (STDERR, "^C" ++ LF)] STDOUT ("__R__" ++ LF)
           [Some (STDOUT, "late" ++ LF)] (["a"], []) eq_refl eq_refl).
Defined.

Example convert_windows_path_ex :
  map (_convert_windows_path_to_bash windows_host)
    ["C:\Users\me"; "'D:\\data\x y'"; "\\server\share\f"; "/c/Users";
     "rel\dir"; "'"; ""]
  = ["/c/Users/me"; "/d/data/x y"; "//server/share/f"; "/c/Users";
     "rel/dir"; ""; ""]
  /\ _convert_windows_path_to_bash linux_host "C:\Users\me" = "C:\Users\me".
Proof. split; reflexivity. Qed.

Lemma replace_backslash_lacks s : lacks "\" (replace_backslash s).
Proof.
  induction s as [|c s IH]; simpl; auto. split; auto.
  destruct (Ascii.eqb c "\") eqn:Hc; [discriminate|].
  apply Ascii.eqb_neq; exact Hc.
Qed.

Lemma replace_backslash_id s : lacks "\" s -> replace_backslash s = s.
Proof.
  induction s as [|c s IH]; simpl; auto. intros [Hc Hs].
  apply Ascii.eqb_neq in Hc. rewrite Hc, IH; auto.
Qed.

Lemma lower_char_not_backslash c : c <> "\"%char -> lower_char c <> "\"%char.
Proof. destruct c as [[] [] [] [] [] [] [] []]; cbv; congruence. Qed.

Lemma lower_lacks_backslash s : lacks "\" s -> lacks "\" (lower s).
Proof.
  induction s as [|c s IH]; simpl; auto. intros [Hc Hs].
  split; auto. apply lower_char_not_backslash; exact Hc.
Qed.

Lemma convert_lacks_backslash E path :
  win32 E = true ->
  (contains ":" (strip_chars is_quote path) = true ->
   lacks "\" (split_before ":" (strip_chars is_quote path))) ->
  lacks "\" (_convert_windows_path_to_bash E path).
Proof.
  intros Hw Hd. unfold _convert_windows_path_to_bash. rewrite Hw. cbn [negb].
  cbv zeta. set (p := strip_chars is_quote path) in *.
  destruct (truthy p); cbn [negb]; [|exact I].
  destruct (startswith p "/" || startswith p "\\").
  { apply replace_backslash_lacks. }
  destruct (contains ":" p).
  - change ("/" ++ lower (split_before ":" p) ++ "/"
            ++ replace_backslash (lstrip_chars is_slash (split_after ":" p)))
      with (String "/" (lower (split_before ":" p)
                        ++ String "/" (replace_backslash
                                         (lstrip_chars is_slash
                                            (split_after ":" p))))).
    cbn [lacks]. split; [discriminate|].
    apply lacks_app; [apply lower_lacks_backslash; auto|].
    cbn [lacks]. split; [discriminate|]. apply replace_backslash_lacks.
  - apply replace_backslash_lacks.
Qed.


(** X19.  On Windows the converted path contains no backslash, provided the
    text before the first colon of the unquoted path (the drive part, which
    is only lower-cased) contains none. *)
Theorem converted_path_has_no_backslash E path :
  win32 E = true ->
  (contains ":" (strip_chars is_quote path) = true ->
   lacks "\" (split_before ":" (strip_chars is_quote path))) ->
  lacks "\" (_convert_windows_path_to_bash E path).
Proof. apply convert_lacks_backslash. Qed.

Example converted_path_has_no_backslash_witness :
  win32 windows_host = true
  /\ (contains ":" (strip_chars is_quote "'C:\Users\me'") = true ->
      lacks "\" (split_before ":" (strip_chars is_quote "'C:\Users\me'")))
  /\ lacks "\" (_convert_windows_path_to_bash windows_host "'C:\Users\me'").
Proof.
  assert (H : contains ":" (strip_chars is_quote "'C:\Users\me'") = true ->
              lacks "\" (split_before ":" (strip_chars is_quote "'C:\Users\me'"))).
  { intros _. cbn. split; [discriminate|exact I]. }
  split; [reflexivity|]. split; [exact H|].
  exact (converted_path_has_no_backslash windows_host "'C:\Users\me'"
           eq_refl H).
Defined.

Lemma rstrip_chars_idem f s :
  rstrip_chars f (rstrip_chars f s) = rstrip_chars f s.
Proof.
  induction s as [|c s IH]; simpl; auto.
  destruct (rstrip_chars f s) as [|d r] eqn:Hr.
  - destruct (f c) eqn:Hc; simpl; auto. rewrite Hc. reflexivity.
  - cbn [rstrip_chars] in IH |- *. rewrite IH. reflexivity.
Qed.

Lemma lstrip_chars_head f s :
  lstrip_chars f s = "" \/
  exists c t, lstrip_chars f s = String c t /\ f c = false.
Proof.
  induction s as [|c s IH]; simpl; auto.
  destruct (f c) eqn:Hc; auto. right. eauto.
Qed.

Lemma rstrip_chars_head f c t :
  f c = false -> exists r, rstrip_chars f (String c t) = String c r.
Proof.
  intro Hc. simpl. rewrite Hc. destruct (rstrip_chars f t); eauto.
Qed.

(** The result of [strip(chars)] is left alone by a second strip on either
    side. *)
Lemma strip_chars_stable f s :
  lstrip_chars f (strip_chars f s) = strip_chars f s
  /\ rstrip_chars f (strip_chars f s) = strip_chars f s.
Proof.
  unfold strip_chars. split; [|apply rstrip_chars_idem].
  destruct (lstrip_chars_head f s) as [-> | (c & t & -> & Hc)]; [reflexivity|].
  destruct (rstrip_chars_head f c t Hc) as [r ->]. simpl. rewrite Hc.
  reflexivity.
Qed.

Lemma is_quote_replace c :
  is_quote (if Ascii.eqb c "\" then "/"%char else c) = is_quote c.
Proof.
  destruct (Ascii.eqb c "\") eqn:Hc; [|reflexivity].
  apply Ascii.eqb_eq in Hc. subst. reflexivity.
Qed.

Lemma lstrip_quote_replace s :
  lstrip_chars is_quote (replace_backslash s)
  = replace_backslash (lstrip_chars is_quote s).
Proof.
  induction s as [|c s IH]; simpl; auto.
  rewrite is_quote_replace. destruct (is_quote c); auto.
Qed.

Lemma rstrip_quote_replace s :
  rstrip_chars is_quote (replace_backslash s)
  = replace_backslash (rstrip_chars is_quote s).
Proof.
  induction s as [|c s IH]; simpl; auto.
  rewrite IH, is_quote_replace.
  destruct (rstrip_chars is_quote s); simpl; auto.
  destruct (is_quote c); auto.
Qed.

Lemma rstrip_chars_suffix f a : forall b,
  rstrip_chars f (a ++ b) = a ++ b -> b <> "" -> rstrip_chars f b = b.
Proof.
  induction a as [|c a IH]; intros b H Hb; [exact H|].
  apply IH; [|exact Hb]. simpl in H.
  destruct (rstrip_chars f (a ++ b)) as [|d r] eqn:Hr.
  - destruct (f c); [discriminate|]. injection H as H.
    destruct a; simpl in H; [congruence|discriminate].
  - injection H as H. exact H.
Qed.

Lemma rstrip_chars_app f x : forall y,
  rstrip_chars f y = y -> y <> "" -> rstrip_chars f (x ++ y) = x ++ y.
Proof.
  induction x as [|c x IH]; intros y H Hy; [exact H|].
  simpl. rewrite (IH y H Hy). destruct (x ++ y) eqn:E; [|reflexivity].
  destruct x; simpl in E; [congruence|discriminate].
Qed.

Lemma lstrip_chars_is_suffix f s : exists a, s = a ++ lstrip_chars f s.
Proof.
  induction s as [|c s [a IH]]; [exists ""; reflexivity|].
  simpl. destruct (f c).
  - exists (String c a). simpl. congruence.
  - exists "". reflexivity.
Qed.

Lemma split_at_colon p :
  contains ":" p = true ->
  p = split_before ":" p ++ String ":" (split_after ":" p).
Proof.
  induction p as [|c p IH]; [discriminate|].
  rewrite contains_cons, split_before_cons. cbn [split_after String.prefix].
  destruct (ascii_dec ":" c) as [<-|Hn].
  - intros _. cbn. destruct p; reflexivity.
  - intro H. cbn [orb] in H.
    assert (Hc : Ascii.eqb c ":" = false)
      by (apply Ascii.eqb_neq; congruence).
    rewrite Hc. simpl. f_equal. apply IH; exact H.
Qed.

Lemma contains_colon_replace s :
  contains ":" s = false -> contains ":" (replace_backslash s) = false.
Proof.
  induction s as [|c s IH]; [reflexivity|].
  cbn [replace_backslash]. rewrite !contains_cons. cbn [String.prefix].
  destruct (ascii_dec ":" c) as [<-|Hn].
  - destruct s; discriminate.
  - intro H. cbn [orb] in H. rewrite (IH H).
    destruct (Ascii.eqb c "\") eqn:Hc.
    + reflexivity.
    + destruct (ascii_dec ":" c); [contradiction|reflexivity].
Qed.

Lemma convert_fixed_point E out :
  win32 E = true ->
  lstrip_chars is_quote out = out ->
  rstrip_chars is_quote out = out ->
  lacks "\" out ->
  startswith out "/" = true \/ contains ":" out = false ->
  _convert_windows_path_to_bash E out = out.
Proof.
  intros Hw Hl Hr Hb Hs. unfold _convert_windows_path_to_bash.
  rewrite Hw. cbn [negb]. cbv zeta. unfold strip_chars. rewrite Hl, Hr.
  destruct out as [|c out']; [reflexivity|]. cbn [truthy negb].
  destruct (startswith (String c out') "/" || startswith (String c out') "\\")
    eqn:H1.
  { apply replace_backslash_id; exact Hb. }
  apply orb_false_elim in H1. destruct H1 as [H1 _].
  destruct Hs as [Hs | Hs]; [congruence|]. rewrite Hs.
  apply replace_backslash_id; exact Hb.
Qed.

Lemma replace_starts_with_slash p :
  startswith p "/" || startswith p "\\" = true ->
  startswith (replace_backslash p) "/" = true.
Proof.
  destruct p as [|c p]; [discriminate|].
  unfold startswith. cbn [String.prefix replace_backslash].
  destruct (ascii_dec "/" c) as [<-|H1].
  - intros _. cbn. destruct (replace_backslash p); reflexivity.
  - destruct (ascii_dec "\" c) as [<-|H2].
    + intros _. cbn. destruct (replace_backslash p); reflexivity.
    + discriminate.
Qed.

(** X20.  Elsewhere than on Windows the path is returned as it is.  On
    every platform, converting a converted path changes nothing, provided
    the drive part of the unquoted path contains no backslash. *)
Theorem convert_windows_path_is_idempotent E path :
  (win32 E = false -> _convert_windows_path_to_bash E path = path)
  /\ ((contains ":" (strip_chars is_quote path) = true ->
       lacks "\" (split_before ":" (strip_chars is_quote path))) ->
      _convert_windows_path_to_bash E (_convert_windows_path_to_bash E path)
      = _convert_windows_path_to_bash E path).
Proof.
  split.
  { intro Hw. unfold _convert_windows_path_to_bash. rewrite Hw. reflexivity. }
  intro Hd. destruct (win32 E) eqn:Hw.
  2:{ unfold _convert_windows_path_to_bash. rewrite Hw. reflexivity. }
  pose proof (convert_lacks_backslash E path Hw Hd) as Hb.
  apply convert_fixed_point; auto;
    unfold _convert_windows_path_to_bash in *; rewrite Hw in *;
    cbn [negb] in *; cbv zeta in *;
    set (p := strip_chars is_quote path) in *;
    destruct (strip_chars_stable is_quote path) as [Sl Sr];
    fold p in Sl, Sr.
  - (* left strip *)
    destruct (truthy p); cbn [negb]; [|reflexivity].
    destruct (startswith p "/" || startswith p "\\").
    { rewrite lstrip_quote_replace, Sl. reflexivity. }
    destruct (contains ":" p).
    + reflexivity.
    + rewrite lstrip_quote_replace, Sl. reflexivity.
  - (* right strip *)
    destruct (truthy p); cbn [negb]; [|reflexivity].
    destruct (startswith p "/" || startswith p "\\").
    { rewrite rstrip_quote_replace, Sr. reflexivity. }
    destruct (contains ":" p) eqn:Hc.
    2:{ rewrite rstrip_quote_replace, Sr. reflexivity. }
    set (rest := lstrip_chars is_slash (split_after ":" p)).
    assert (Hrest : rstrip_chars is_quote rest = rest).
    { destruct rest as [|c0 r0] eqn:Er; [reflexivity|]. rewrite <- Er.
      destruct (lstrip_chars_is_suffix is_slash (split_after ":" p)) as [a Ha].
      fold rest in Ha.
      apply (rstrip_chars_suffix is_quote
               (split_before ":" p ++ String ":" a)).
      - rewrite app_assoc_s. cbn [append]. rewrite <- Ha.
        rewrite <- (split_at_colon p Hc). exact Sr.
      - rewrite Er. discriminate. }
    change ("/" ++ lower (split_before ":" p) ++ "/" ++ replace_backslash rest)
      with (("/" ++ lower (split_before ":" p))
            ++ String "/" (replace_backslash rest)).
    apply rstrip_chars_app; [|discriminate].
    cbn [rstrip_chars]. rewrite rstrip_quote_replace, Hrest.
    destruct (replace_backslash rest); reflexivity.
  - (* starts with a slash, or has no colon *)
    destruct (truthy p); cbn [negb]; [|right; reflexivity].
    destruct (startswith p "/" || startswith p "\\") eqn:H1.
    { left. apply replace_starts_with_slash; exact H1. }
    destruct (contains ":" p) eqn:Hc.
    + left. exact (prefix_app "/" _).
    + right. apply contains_colon_replace; exact Hc.
Qed.


Example convert_windows_path_is_idempotent_witness :
  (contains ":" (strip_chars is_quote "'C:\Users\me'") = true ->
   lacks "\" (split_before ":" (strip_chars is_quote "'C:\Users\me'")))
  /\ _convert_windows_path_to_bash windows_host
       (_convert_windows_path_to_bash windows_host "'C:\Users\me'")
     = _convert_windows_path_to_bash windows_host "'C:\Users\me'".
Proof.
  assert (H : contains ":" (strip_chars is_quote "'C:\Users\me'") = true ->
              lacks "\" (split_before ":" (strip_chars is_quote "'C:\Users\me'"))).
  { intros _. cbn. split; [discriminate|exact I]. }
  split; [exact H|].
  exact (proj2 (convert_windows_path_is_idempotent windows_host
                  "'C:\Users\me'") H).
Defined.
